(** * celer: the scikit-learn drop-in estimators of [celer/dropin_sklearn.py]

    The file embeds the two estimator classes [Lasso] and [LassoCV] of
    [celer/dropin_sklearn.py]: their constructors and their [path] methods.

    - Python objects are attribute dictionaries ([gmap string pyval]); a
      method is a computation in a state-and-exception monad over the
      instance it is called on.
    - The names the module imports, [celer_path] and the two scikit-learn
      base classes, are the fields of the class [Imports]: what is proved of
      the wrappers alone is proved for every instance of it.
    - [celer/homotopy.py], where [celer_path] lives, is modelled in the module
      [homotopy] as the path state machine of the design, over numerical
      components that are left open (the class [homotopy.Core]).
    - Floats are binary64 ([PrimFloat]); a numpy array is the list of its
      entries. *)

From Stdlib Require Import ZArith Floats.PrimFloat.
From stdpp Require Import base option list gmap strings pretty.

Set Warnings "-inexact-float,-register-all".
Local Open Scope Z_scope.

(** ** Python values *)

(** The values that cross the interface of the two classes.  A numpy array is
    represented by the (nested) list of its entries. *)
Inductive pyval : Type :=
| PyNone
| PyBool (b : bool)
| PyInt (z : Z)
| PyFloat (f : float)
| PyStr (s : string)
| PyTuple (items : list pyval)
| PyList (items : list pyval).

(** The exceptions that can reach a caller of the two classes.
    [InvalidParameter] is the [ValueError] with which scikit-learn's
    [set_params] refuses a keyword that names no parameter of the
    estimator. *)
Inductive pyexn : Type :=
| AttributeError (attr : string)
| TypeError (msg : string)
| ValueError (msg : string)
| InvalidParameter (name : string)
| ConfigurationError
| ConsistencyError (alpha : float) (iteration : nat).

(** A call either returns a value or raises. *)
Inductive outcome (A : Type) : Type :=
| Return (a : A)
| Raise (e : pyexn).
Arguments Return {A} a.
Arguments Raise {A} e.

Definition outcome_map {A B : Type} (f : A -> B) (o : outcome A) : outcome B :=
  match o with
  | Return a => Return (f a)
  | Raise e => Raise e
  end.

(** Truth value of an object, as [if v:] tests it. *)
Definition truthy (v : pyval) : bool :=
  match v with
  | PyNone => false
  | PyBool b => b
  | PyInt z => negb (z =? 0)
  | PyFloat f => negb (PrimFloat.eqb f 0%float)
  | PyStr s => negb (String.eqb s "")
  | PyTuple items | PyList items => negb (bool_decide (items = []))
  end.

(** The items an unpacking assignment iterates over; [None] for an object that
    is not iterable. *)
Definition iter_items (v : pyval) : option (list pyval) :=
  match v with
  | PyTuple items | PyList items => Some items
  | PyStr s => Some ((fun c => PyStr (String c EmptyString)) <$> String.list_ascii_of_string s)
  | PyNone | PyBool _ | PyInt _ | PyFloat _ => None
  end.

(** The name of the type of an object, as an error message shows it. *)
Definition type_name (v : pyval) : string :=
  match v with
  | PyNone => "NoneType"
  | PyBool _ => "bool"
  | PyInt _ => "int"
  | PyFloat _ => "float"
  | PyStr _ => "str"
  | PyTuple _ => "tuple"
  | PyList _ => "list"
  end.

(** The exception of an unpacking assignment with three targets whose right
    hand side [v] does not hold exactly three items. *)
Definition not_three (v : pyval) : pyexn :=
  match iter_items v with
  | None => TypeError ("cannot unpack non-iterable " +:+ type_name v +:+ " object")
  | Some items =>
      if (length items <? 3)%nat
      then ValueError ("not enough values to unpack (expected 3, got "
                       +:+ pretty (length items) +:+ ")")
      else ValueError "too many values to unpack (expected 3)"
  end.

(** ** The imported names *)

(** The keyword call [celer_path(X, y, alphas=..., max_iter=..., gap_freq=...,
    max_epochs=..., p0=..., verbose=..., tol=..., prune=...)]. *)
Module Kw.
Record t : Type := call {
  X : pyval;
  y : pyval;
  alphas : pyval;
  max_iter : pyval;
  gap_freq : pyval;
  max_epochs : pyval;
  p0 : pyval;
  verbose : pyval;
  tol : pyval;
  prune : pyval
}.
End Kw.

(** What [dropin_sklearn.py] imports.  [World] is everything outside the
    instance that imported code can read or write (the standard output, for
    one); [celer_path] is the solver entry point of [celer/homotopy.py]; the
    two [_sklearn_init] are the constructors of the scikit-learn base classes,
    called on the instance under construction with the keywords the source
    passes them: each gives its outcome together with the attributes of the
    instance as it leaves them, so a constructor that raises may have
    assigned attributes before it did. *)
Class Imports : Type := {
  World : Type;
  celer_path : Kw.t -> World -> outcome pyval * World;
  Lasso_sklearn_init :
    forall (alpha tol max_iter : pyval),
      gmap string pyval -> outcome unit * gmap string pyval;
  LassoCV_sklearn_init :
    forall (eps n_alphas alphas max_iter tol cv fit_intercept verbose : pyval),
      gmap string pyval -> outcome unit * gmap string pyval
}.

(** ** Method bodies as computations *)

(** The state a method runs in: the attributes of [self], the calls made to
    [celer_path] so far, and the world of the imported code. *)
Record state `{Imports} : Type := mkstate {
  self_attrs : gmap string pyval;
  calls : list Kw.t;
  world : World
}.

Definition M `{Imports} (A : Type) : Type := state -> outcome A * state.

Definition raise `{Imports} {A : Type} (e : pyexn) : M A := fun st => (Raise e, st).

#[global] Instance M_ret `{Imports} : MRet M := fun A a st => (Return a, st).

(** Sequencing: the second computation runs only if the first returns; an
    exception leaves with the state it was raised in. *)
#[global] Instance M_bind `{Imports} : MBind M := fun A B k m st =>
  match m st with
  | (Return a, st') => k a st'
  | (Raise e, st') => (Raise e, st')
  end.

(** [self.name] *)
Definition getattr `{Imports} (name : string) : M pyval :=
  fun st =>
    match self_attrs st !! name with
    | Some v => (Return v, st)
    | None => (Raise (AttributeError name), st)
    end.

(** [self.name = v] *)
Definition setattr `{Imports} (name : string) (v : pyval) : M unit :=
  fun st => (Return tt, mkstate _ (<[name := v]> (self_attrs st)) (calls st) (world st)).

(** [super(...).__init__(...)]: the base-class constructor runs on [self];
    what it assigned stays on [self] whether it returns or raises. *)
Definition super_init `{Imports}
    (init : gmap string pyval -> outcome unit * gmap string pyval) : M unit :=
  fun st =>
    let '(r, attrs) := init (self_attrs st) in
    (r, mkstate _ attrs (calls st) (world st)).

(** A call of the imported [celer_path]; the call is recorded. *)
Definition call_celer_path `{Imports} (k : Kw.t) : M pyval :=
  fun st =>
    let '(r, w) := celer_path k (world st) in
    (r, mkstate _ (self_attrs st) (calls st ++ [k]) w).

(** [a, b, c = v] *)
Definition unpack3 `{Imports} (v : pyval) : M (pyval * pyval * pyval) :=
  match iter_items v with
  | Some [a; b; c] => mret (a, b, c)
  | _ => raise (not_three v)
  end.

(** ** class Lasso(Lasso_sklearn) *)

Module Lasso.

(** The parameters of [Lasso.__init__]. *)
Record args : Type := mkargs {
  alpha : pyval;
  max_iter : pyval;
  gap_freq : pyval;
  max_epochs : pyval;
  p0 : pyval;
  verbose : pyval;
  tol : pyval;
  prune : pyval
}.

(** [alpha=1., max_iter=100, gap_freq=10, max_epochs=50000, p0=10, verbose=0,
    tol=1e-6, prune=0] *)
Definition defaults : args :=
  {| alpha := PyFloat 1.0; max_iter := PyInt 100; gap_freq := PyInt 10;
     max_epochs := PyInt 50000; p0 := PyInt 10; verbose := PyInt 0;
     tol := PyFloat 1e-6; prune := PyInt 0 |}.

(** The parameters of the estimator as scikit-learn's [get_params] and
    [set_params] find them: the names in the signature of [__init__]. *)
Definition parameters : list string :=
  ["alpha"; "max_iter"; "gap_freq"; "max_epochs"; "p0"; "verbose"; "tol"; "prune"].

Definition __init__ `{Imports} (a : args) : M unit :=
  super_init (Lasso_sklearn_init (alpha a) (tol a) (max_iter a)) ;;
  setattr "verbose" (verbose a) ;;
  setattr "gap_freq" (gap_freq a) ;;
  setattr "max_epochs" (max_epochs a) ;;
  setattr "p0" (p0 a) ;;
  setattr "prune" (prune a) ;;
  setattr "fit_intercept" (PyBool false) ;;
  setattr "return_n_iter" (PyBool true).

Definition path `{Imports} (X y alphas : pyval) (kwargs : gmap string pyval) : M pyval :=
  max_iter ← getattr "max_iter";
  gap_freq ← getattr "gap_freq";
  max_epochs ← getattr "max_epochs";
  p0 ← getattr "p0";
  verbose ← getattr "verbose";
  tol ← getattr "tol";
  prune ← getattr "prune";
  r ← call_celer_path
         (Kw.call X y alphas max_iter gap_freq max_epochs p0 verbose tol prune);
  '(alphas, coefs, dual_gaps) ← unpack3 r;
  mret (PyTuple [alphas; coefs; dual_gaps; PyList [PyInt 1]]).

End Lasso.

(** ** class LassoCV(LassoCV_sklearn) *)

Module LassoCV.

(** The parameters of [LassoCV.__init__]. *)
Record args : Type := mkargs {
  eps : pyval;
  n_alphas : pyval;
  alphas : pyval;
  fit_intercept : pyval;
  max_iter : pyval;
  tol : pyval;
  cv : pyval;
  verbose : pyval;
  gap_freq : pyval;
  max_epochs : pyval;
  p0 : pyval;
  prune : pyval;
  normalize : pyval;
  precompute : pyval
}.

(** [eps=1e-3, n_alphas=100, alphas=None, fit_intercept=False, max_iter=100,
    tol=1e-6, cv=None, verbose=0, gap_freq=10, max_epochs=50000, p0=10,
    prune=0, normalize=False, precompute='auto'] *)
Definition defaults : args :=
  {| eps := PyFloat 1e-3; n_alphas := PyInt 100; alphas := PyNone;
     fit_intercept := PyBool false; max_iter := PyInt 100; tol := PyFloat 1e-6;
     cv := PyNone; verbose := PyInt 0; gap_freq := PyInt 10;
     max_epochs := PyInt 50000; p0 := PyInt 10; prune := PyInt 0;
     normalize := PyBool false; precompute := PyStr "auto" |}.

(** The parameters of the estimator: the names in the signature of
    [__init__]. *)
Definition parameters : list string :=
  ["eps"; "n_alphas"; "alphas"; "fit_intercept"; "max_iter"; "tol"; "cv"; "verbose";
   "gap_freq"; "max_epochs"; "p0"; "prune"; "normalize"; "precompute"].

Definition __init__ `{Imports} (a : args) : M unit :=
  super_init (LassoCV_sklearn_init (eps a) (n_alphas a) (alphas a) (max_iter a)
                (tol a) (cv a) (fit_intercept a) (verbose a)) ;;
  setattr "gap_freq" (gap_freq a) ;;
  setattr "max_epochs" (max_epochs a) ;;
  setattr "p0" (p0 a) ;;
  setattr "prune" (prune a) ;;
  setattr "fit_intercept" (PyBool false) ;;
  setattr "return_n_iter" (PyBool true).

Definition path `{Imports} (X y alphas : pyval) (kwargs : gmap string pyval) : M pyval :=
  max_iter ← getattr "max_iter";
  gap_freq ← getattr "gap_freq";
  max_epochs ← getattr "max_epochs";
  p0 ← getattr "p0";
  verbose ← getattr "verbose";
  tol ← getattr "tol";
  prune ← getattr "prune";
  r ← call_celer_path
         (Kw.call X y alphas max_iter gap_freq max_epochs p0 verbose tol prune);
  '(alphas, coefs, dual_gaps) ← unpack3 r;
  mret (PyTuple [alphas; coefs; dual_gaps]).

End LassoCV.

(** ** celer/homotopy.py: the solver behind [celer_path] *)

Module homotopy.

(** Modelled from the spec: the numerical components of [celer/homotopy.py],
    which is not among the sources (section 2: Coordinate Descent Epoch
    Engine, Dual Gap and Extrapolation Module, Working Set Manager).  Their
    arithmetic is left open; [Subproblem] is the mutable state of one alpha
    (section 3: Iterate, WorkingSet, ResidualHistory). *)
Class Core : Type := {
  Subproblem : Type;
  (** number of columns of the design matrix *)
  n_features : pyval -> nat;
  (** section 4.2: a gap below [-tolerance_epsilon] is a feasibility bug *)
  tolerance_epsilon : float;
  (** section 4.4 WARM_START: [warm_start X y alpha p0 previous_w] *)
  warm_start : pyval -> pyval -> float -> N -> option pyval -> Subproblem;
  (** section 4.3: [grow X y alpha p0 prune s] grows, and prunes if enabled *)
  grow : pyval -> pyval -> float -> N -> bool -> Subproblem -> Subproblem;
  (** section 4.1: [cd_epochs X y alpha gap_freq max_epochs s] *)
  cd_epochs : pyval -> pyval -> float -> N -> N -> Subproblem -> Subproblem;
  (** section 4.2: the duality gap, and the state with the snapshot pushed *)
  dual_gap : pyval -> pyval -> float -> Subproblem -> float * Subproblem;
  (** the coefficient vector [w] of the iterate *)
  coef : Subproblem -> pyval
}.

(** Modelled from the spec: the ProblemDescriptor of section 3, for
    [celer/homotopy.py] (not among the sources), with the alpha grid of the
    path call and the verbosity of section 6. *)
Record ProblemDescriptor : Type := mkpd {
  X : pyval;
  y : pyval;
  alphas : list float;
  tol : float;
  max_iter : nat;
  max_epochs : N;
  gap_freq : N;
  p0 : N;
  prune : bool;
  verbose : bool
}.

(** Modelled from the spec: the PathResult of section 3 for one alpha, for
    [celer/homotopy.py] (not among the sources); [converged] is the record of
    non-convergence of section 4.4. *)
Record PathResult : Type := mkresult {
  w : pyval;
  gap : float;
  n_iter : nat;
  converged : bool
}.

(** Modelled from the spec: what [celer/homotopy.py] (not among the sources)
    does to the world.  [gap_line] is a line of the gap logging of section 6;
    the work events record the transitions of section 4.4 that were taken. *)
Inductive log_line : Type :=
| gap_line (alpha : float) (n_iter : nat) (gap : float).

(** Modelled from the spec: the transitions of section 4.4 as events, for
    [celer/homotopy.py] (not among the sources): a warm start, a working-set
    growth, a batch of epochs, a gap check. *)
Inductive work_event : Type :=
| seeded (alpha : float)
| grew (alpha : float) (n_iter : nat)
| swept (alpha : float) (n_iter : nat) (epochs : N)
| checked (alpha : float) (n_iter : nat) (gap : float).

(** Modelled from the spec: the world of [celer/homotopy.py] (not among the
    sources): the lines printed and the work done so far. *)
Record SolverWorld : Type := mkworld {
  stdout : list log_line;
  work : list work_event
}.

(** Modelled from the spec: a transition of section 4.4 leaves its event. *)
Definition did (e : work_event) (wd : SolverWorld) : SolverWorld :=
  mkworld (stdout wd) (work wd ++ [e]).

(** Modelled from the spec: section 6, a line is printed only when [verbose]
    is set ([celer/homotopy.py] is not among the sources). *)
Definition printed (verbose : bool) (l : log_line) (wd : SolverWorld) : SolverWorld :=
  if verbose then mkworld (stdout wd ++ [l]) (work wd) else wd.

(** Modelled from the spec: the states of one alpha subproblem in the Path
    Orchestrator of [celer/homotopy.py] (not among the sources), section 4.4:
    WARM_START, GROWING, EPOCHS, GAP_CHECK, CONVERGED; [STOPPED] is the stop at
    [max_iter] with non-convergence recorded, [ABORTED] the fatal
    internal-consistency error of sections 4.2 and 7. *)
Inductive machine `{Core} : Type :=
| WARM_START (previous_w : option pyval)
| GROWING (s : Subproblem) (n : nat)
| EPOCHS (s : Subproblem) (n : nat)
| GAP_CHECK (s : Subproblem) (n : nat)
| CONVERGED (r : PathResult)
| STOPPED (r : PathResult)
| ABORTED (e : pyexn).

(** Modelled from the spec: the states of section 4.4 that end a subproblem
    ([celer/homotopy.py] is not among the sources). *)
Definition terminal `{Core} (m : machine) : bool :=
  match m with
  | CONVERGED _ | STOPPED _ | ABORTED _ => true
  | WARM_START _ | GROWING _ _ | EPOCHS _ _ | GAP_CHECK _ _ => false
  end.

(** Modelled from the spec: one transition of the state machine of section 4.4
    ([celer/homotopy.py] is not among the sources).  An outer iteration is one
    GROWING, EPOCHS, GAP_CHECK round; it is counted when it starts. *)
Definition step `{Core} (pd : ProblemDescriptor) (alpha : float)
    (m : machine) (wd : SolverWorld) : machine * SolverWorld :=
  match m with
  | WARM_START previous_w =>
      (GROWING (warm_start (X pd) (y pd) alpha (p0 pd) previous_w) 0, did (seeded alpha) wd)
  | GROWING s n =>
      (EPOCHS (grow (X pd) (y pd) alpha (p0 pd) (prune pd) s) (S n),
       did (grew alpha (S n)) wd)
  | EPOCHS s n =>
      (GAP_CHECK (cd_epochs (X pd) (y pd) alpha (gap_freq pd) (max_epochs pd) s) n,
       did (swept alpha n (gap_freq pd)) wd)
  | GAP_CHECK s n =>
      let '(g, s') := dual_gap (X pd) (y pd) alpha s in
      let wd' := printed (verbose pd) (gap_line alpha n g) (did (checked alpha n g) wd) in
      if PrimFloat.ltb g (PrimFloat.opp tolerance_epsilon)
      then (ABORTED (ConsistencyError alpha n), wd')
      else if PrimFloat.leb g (tol pd)
      then (CONVERGED (mkresult (coef s') g n true), wd')
      else if (n <? max_iter pd)%nat
      then (GROWING s' n, wd')
      else (STOPPED (mkresult (coef s') g n false), wd')
  | CONVERGED _ | STOPPED _ | ABORTED _ => (m, wd)
  end.

(** Modelled from the spec: the machine run for at most [fuel] transitions. *)
Fixpoint run `{Core} (pd : ProblemDescriptor) (alpha : float) (fuel : nat)
    (m : machine) (wd : SolverWorld) : machine * SolverWorld :=
  match fuel with
  | O => (m, wd)
  | S fuel' =>
      if terminal m then (m, wd)
      else let '(m', wd') := step pd alpha m wd in run pd alpha fuel' m' wd'
  end.

(** Modelled from the spec: one alpha subproblem, from WARM_START to its
    PathResult.  [max_iter] rounds of three transitions after the warm start
    are a hard ceiling (section 5), so the last case is not reached when
    [max_iter] is positive.  [max_iter] bounds the recursion and is a [nat];
    the other limits are only handed to the components. *)
Definition solve_alpha `{Core} (pd : ProblemDescriptor) (alpha : float)
    (previous_w : option pyval) (wd : SolverWorld) : outcome PathResult * SolverWorld :=
  match run pd alpha (1 + 3 * max_iter pd) (WARM_START previous_w) wd with
  | (CONVERGED r, wd') | (STOPPED r, wd') => (Return r, wd')
  | (ABORTED e, wd') => (Raise e, wd')
  | (_, wd') => (Raise (ValueError "iteration ceiling exceeded"), wd')
  end.

(** Modelled from the spec: the Path Orchestrator of section 2 over the alpha
    grid as supplied; each subproblem is warm-started from the previous
    alpha's [w], and a fatal error ends the path. *)
Fixpoint path_loop `{Core} (pd : ProblemDescriptor) (grid : list float)
    (previous_w : option pyval) (wd : SolverWorld)
    : outcome (list PathResult) * SolverWorld :=
  match grid with
  | [] => (Return [], wd)
  | alpha :: grid' =>
      match solve_alpha pd alpha previous_w wd with
      | (Raise e, wd') => (Raise e, wd')
      | (Return r, wd') =>
          match path_loop pd grid' (Some (w r)) wd' with
          | (Return rs, wd'') => (Return (r :: rs), wd'')
          | (Raise e, wd'') => (Raise e, wd'')
          end
      end
  end.

(** Modelled from the spec: a tolerance or an alpha of section 3, a float
    ([celer/homotopy.py] is not among the sources). *)
Definition as_float (v : pyval) : option float :=
  match v with PyFloat f => Some f | _ => None end.

(** Modelled from the spec: the alpha grid of section 6, an ordered sequence
    of floats ([celer/homotopy.py] is not among the sources). *)
Definition as_floats (v : pyval) : option (list float) :=
  match v with
  | PyList items | PyTuple items => mapM as_float items
  | _ => None
  end.

(** Modelled from the spec: a limit of section 3, a positive integer
    ([celer/homotopy.py] is not among the sources). *)
Definition as_positive (v : pyval) : option N :=
  match v with
  | PyInt z => if 0 <? z then Some (Z.to_N z) else None
  | _ => None
  end.

(** Modelled from the spec: the configuration check of section 7 for
    [celer/homotopy.py] (not among the sources).  A descriptor exists only
    for a grid without a negative alpha, a tolerance that is not
    non-positive, positive limits (section 3) and a design matrix with at
    least one feature. *)
Definition descriptor `{Core} (k : Kw.t) : option ProblemDescriptor :=
  grid ← as_floats (Kw.alphas k);
  tol ← as_float (Kw.tol k);
  max_iter ← N.to_nat <$> as_positive (Kw.max_iter k);
  gap_freq ← as_positive (Kw.gap_freq k);
  max_epochs ← as_positive (Kw.max_epochs k);
  p0 ← as_positive (Kw.p0 k);
  if forallb (fun a => negb (PrimFloat.ltb a 0)) grid
     && negb (PrimFloat.leb tol 0)
     && negb (n_features (Kw.X k) =? 0)%nat
  then Some (mkpd (Kw.X k) (Kw.y k) grid tol max_iter max_epochs gap_freq p0
               (truthy (Kw.prune k)) (truthy (Kw.verbose k)))
  else None.

(** Modelled from the spec: the solver entry point of section 6 for
    [celer/homotopy.py] (not among the sources): the configuration is checked
    before any solve begins, then the path is solved. *)
Definition solve `{Core} (k : Kw.t) (wd : SolverWorld)
    : outcome (list PathResult) * SolverWorld :=
  match descriptor k with
  | None => (Raise ConfigurationError, wd)
  | Some pd => path_loop pd (alphas pd) None wd
  end.

(** Modelled from the spec: [celer_path] of [celer/homotopy.py] (not among the
    sources), with the return value [dropin_sklearn.py] unpacks: the alphas,
    the coefficient vectors and the dual gaps. *)
Definition celer_path `{Core} (k : Kw.t) (wd : SolverWorld) : outcome pyval * SolverWorld :=
  let '(r, wd') := solve k wd in
  (outcome_map
     (fun rs => PyTuple [Kw.alphas k; PyList (w <$> rs); PyList ((fun r => PyFloat (gap r)) <$> rs)])
     r, wd').

(** Modelled from the spec: section 7, a negative number among the arguments
    of a [celer_path] call ([celer/homotopy.py] is not among the sources). *)
Definition negative (v : pyval) : bool :=
  match v with
  | PyFloat f => PrimFloat.ltb f 0
  | PyInt z => z <? 0
  | _ => false
  end.

(** Modelled from the spec: section 7, a non-positive number among the
    arguments of a [celer_path] call ([celer/homotopy.py] is not among the
    sources). *)
Definition nonpositive (v : pyval) : bool :=
  match v with
  | PyFloat f => PrimFloat.leb f 0
  | PyInt z => z <=? 0
  | _ => false
  end.

(** Modelled from the spec: the configuration errors of section 7 (a negative
    alpha, a non-positive tol, an empty feature set) and of section 3 (a limit
    that is not positive), stated on the arguments of a [celer_path] call
    ([celer/homotopy.py] is not among the sources). *)
Inductive invalid_configuration `{Core} (k : Kw.t) : Prop :=
| negative_alpha (items : list pyval) (a : pyval) :
    iter_items (Kw.alphas k) = Some items -> a ∈ items -> negative a = true ->
    invalid_configuration k
| nonpositive_tol :
    nonpositive (Kw.tol k) = true -> invalid_configuration k
| empty_feature_set :
    n_features (Kw.X k) = 0%nat -> invalid_configuration k
| nonpositive_limit (v : pyval) :
    v ∈ [Kw.max_iter k; Kw.gap_freq k; Kw.max_epochs k; Kw.p0 k] ->
    nonpositive v = true -> invalid_configuration k.

End homotopy.

(** ** The scikit-learn base classes *)

Module sklearn.

(** [sklearn.linear_model.Lasso.__init__] called with [alpha], [tol] and
    [max_iter]: a scikit-learn constructor records its parameters as
    attributes of the same names.  The other parameters keep the defaults
    shown by the estimator's repr in the docstring of [Lasso]. *)
Definition Lasso_init (alpha tol max_iter : pyval) (self : gmap string pyval)
    : outcome unit * gmap string pyval :=
  (Return tt,
   <["alpha" := alpha]> (<["copy_X" := PyBool true]>
   (<["fit_intercept" := PyBool true]> (<["max_iter" := max_iter]>
   (<["normalize" := PyBool false]> (<["positive" := PyBool false]>
   (<["precompute" := PyBool false]> (<["random_state" := PyNone]>
   (<["selection" := PyStr "cyclic"]> (<["tol" := tol]>
   (<["warm_start" := PyBool false]> self))))))))))).

(** [sklearn.linear_model.LassoCV.__init__] called with the eight keywords
    [LassoCV.__init__] passes; the parameters it is not passed are not read
    by [dropin_sklearn.py] and are left out. *)
Definition LassoCV_init (eps n_alphas alphas max_iter tol cv fit_intercept verbose : pyval)
    (self : gmap string pyval) : outcome unit * gmap string pyval :=
  (Return tt,
   <["eps" := eps]> (<["n_alphas" := n_alphas]> (<["alphas" := alphas]>
   (<["max_iter" := max_iter]> (<["tol" := tol]> (<["cv" := cv]>
   (<["fit_intercept" := fit_intercept]> (<["verbose" := verbose]> self)))))))).

(** [BaseEstimator.set_params(name=value)], the public method both classes
    inherit, through their base classes, to change a parameter of a
    constructed estimator.  The parameters of an estimator are the names in
    the signature of its [__init__]: a keyword that is one of them is
    assigned as the attribute of that name, any other is refused with
    [ValueError] and nothing is assigned.  A keyword of the form
    [name__sub], which addresses a parameter of an estimator stored under
    [name], is outside this definition: no parameter of the two classes
    holds an estimator. *)
Definition set_params `{Imports} (parameters : list string) (name : string) (value : pyval)
    : M unit :=
  if bool_decide (name ∈ parameters) then setattr name value
  else raise (InvalidParameter name).

End sklearn.

(** ** The module with its imports resolved *)

(** [dropin_sklearn.py] as installed: [celer_path] is the solver of
    [celer/homotopy.py], the base classes are scikit-learn's. *)
Definition installed `{homotopy.Core} : Imports :=
  {| World := homotopy.SolverWorld;
     celer_path := homotopy.celer_path;
     Lasso_sklearn_init := sklearn.Lasso_init;
     LassoCV_sklearn_init := sklearn.LassoCV_init |}.

(** A fresh instance, before [__init__] has run, in a world where nothing has
    been printed or computed yet. *)
Definition fresh `{homotopy.Core} : @state installed :=
  @mkstate installed ∅ [] (homotopy.mkworld [] []).

(** A stand-in for the numerical core, to run the classes on: the state of a
    subproblem is its current gap, which starts at 1 and is halved by every
    epoch, and the coefficient vector is empty.  The design matrix is a list
    of rows. *)
Definition halving_core : homotopy.Core :=
  {| homotopy.Subproblem := float;
     homotopy.n_features := fun X =>
       match X with PyList (PyList row :: _) => length row | _ => 0%nat end;
     homotopy.tolerance_epsilon := 1e-12%float;
     homotopy.warm_start := fun _ _ _ _ _ => 1%float;
     homotopy.grow := fun _ _ _ _ _ s => s;
     homotopy.cd_epochs := fun _ _ _ gap_freq _ s =>
       N.iter gap_freq (fun g => PrimFloat.mul g 0.5) s;
     homotopy.dual_gap := fun _ _ _ s => (s, s);
     homotopy.coef := fun _ => PyList [] |}.

(** ** Vocabulary of the statements *)

(** The attributes [path] reads: the stored configuration. *)
Definition configuration_names : list string :=
  ["max_iter"; "gap_freq"; "max_epochs"; "p0"; "verbose"; "tol"; "prune"].

(** The first [n] components of a tuple. *)
Definition components (n : nat) (v : pyval) : pyval :=
  match v with
  | PyTuple items => PyTuple (take n items)
  | _ => v
  end.

(** What the unpacking [alphas, coefs, dual_gaps = v] followed by the return
    of the tuple extended with [tail] amounts to. *)
Definition repack (tail : list pyval) (v : pyval) : outcome pyval :=
  match iter_items v with
  | Some [a; b; c] => Return (PyTuple ([a; b; c] ++ tail))
  | _ => Raise (not_three v)
  end.

Definition outcome_bind {A B : Type} (o : outcome A) (k : A -> outcome B) : outcome B :=
  match o with
  | Return a => k a
  | Raise e => Raise e
  end.

Definition attribute (attrs : gmap string pyval) (name : string) : outcome pyval :=
  match attrs !! name with
  | Some v => Return v
  | None => Raise (AttributeError name)
  end.

(** The call of [celer_path] that [path] builds from the attributes of the
    instance, read in the order of the keywords of the call. *)
Definition stored_call (attrs : gmap string pyval) (X y alphas : pyval) : outcome Kw.t :=
  outcome_bind (attribute attrs "max_iter") (fun max_iter =>
  outcome_bind (attribute attrs "gap_freq") (fun gap_freq =>
  outcome_bind (attribute attrs "max_epochs") (fun max_epochs =>
  outcome_bind (attribute attrs "p0") (fun p0 =>
  outcome_bind (attribute attrs "verbose") (fun verbose =>
  outcome_bind (attribute attrs "tol") (fun tol =>
  outcome_bind (attribute attrs "prune") (fun prune =>
  Return (Kw.call X y alphas max_iter gap_freq max_epochs p0 verbose tol prune)))))))).

(** Both [path] methods are the same computation up to the tail appended to
    the three values unpacked from the result of [celer_path]. *)
Definition path_run `{Imports} (tail : list pyval) (X y alphas : pyval) (st : state)
    : outcome pyval * state :=
  match stored_call (self_attrs st) X y alphas with
  | Raise e => (Raise e, st)
  | Return k =>
      let out := celer_path k (world st) in
      (outcome_bind out.1 (repack tail), mkstate _ (self_attrs st) (calls st ++ [k]) out.2)
  end.

(** The descriptor with its verbosity switched off: what is left is what the
    numerical results may depend on. *)
Definition quiet (pd : homotopy.ProblemDescriptor) : homotopy.ProblemDescriptor :=
  homotopy.mkpd (homotopy.X pd) (homotopy.y pd) (homotopy.alphas pd) (homotopy.tol pd)
    (homotopy.max_iter pd) (homotopy.max_epochs pd) (homotopy.gap_freq pd)
    (homotopy.p0 pd) (homotopy.prune pd) false.

(** The gap recorded in a result is the value of the duality gap at the
    coefficient vector recorded with it. *)
Definition certified `{homotopy.Core} (pd : homotopy.ProblemDescriptor) (alpha : float)
    (r : homotopy.PathResult) : Prop :=
  exists s s' : homotopy.Subproblem,
    homotopy.dual_gap (homotopy.X pd) (homotopy.y pd) alpha s = (homotopy.gap r, s') /\
    homotopy.w r = homotopy.coef s'.

(** What the state machine guarantees of the result it records for an alpha. *)
Definition recorded `{homotopy.Core} (pd : homotopy.ProblemDescriptor) (alpha : float)
    (r : homotopy.PathResult) : Prop :=
  homotopy.converged r = PrimFloat.leb (homotopy.gap r) (homotopy.tol pd) /\
  (1 <= homotopy.n_iter r <= homotopy.max_iter pd)%nat /\
  (homotopy.converged r = false -> homotopy.n_iter r = homotopy.max_iter pd) /\
  certified pd alpha r.

(** The invariant of the state machine of one alpha. *)
Definition sound `{homotopy.Core} (pd : homotopy.ProblemDescriptor) (alpha : float)
    (m : homotopy.machine) : Prop :=
  match m with
  | homotopy.WARM_START _ => True
  | homotopy.GROWING _ n => (n < homotopy.max_iter pd)%nat
  | homotopy.EPOCHS _ n | homotopy.GAP_CHECK _ n => (1 <= n <= homotopy.max_iter pd)%nat
  | homotopy.CONVERGED r => homotopy.converged r = true /\ recorded pd alpha r
  | homotopy.STOPPED r => homotopy.converged r = false /\ recorded pd alpha r
  | homotopy.ABORTED e => exists n, e = ConsistencyError alpha n
  end.

(** A [celer_path] call with its [verbose] argument blanked: two calls with
    the same blanked call differ at most in verbosity. *)
Definition hush (k : Kw.t) : Kw.t :=
  Kw.call (Kw.X k) (Kw.y k) (Kw.alphas k) (Kw.max_iter k) (Kw.gap_freq k)
    (Kw.max_epochs k) (Kw.p0 k) PyNone (Kw.tol k) (Kw.prune k).

(** The data of the example in the docstring of [Lasso], and a grid of two
    alphas. *)
Definition example_X : pyval :=
  PyList [PyList [PyFloat 0; PyFloat 0]; PyList [PyFloat 1; PyFloat 1];
          PyList [PyFloat 2; PyFloat 2]].

Definition example_y : pyval := PyList [PyFloat 0; PyFloat 1; PyFloat 2].

Definition example_alphas : pyval := PyList [PyFloat 0.5; PyFloat 0.1].

(** [r] holds, besides the coefficients and the gaps of the results [rs], the
    outer-iteration count of every alpha as its fourth component and the
    convergence flag of every alpha as a further component. *)
Definition reports_iterations_and_convergence (r : pyval)
    (rs : list homotopy.PathResult) : Prop :=
  exists items,
    r = PyTuple items /\
    items !! 1%nat = Some (PyList (homotopy.w <$> rs)) /\
    items !! 2%nat = Some (PyList ((fun res => PyFloat (homotopy.gap res)) <$> rs)) /\
    items !! 3%nat = Some (PyList ((fun res => PyInt (Z.of_nat (homotopy.n_iter res))) <$> rs)) /\
    PyList ((fun res => PyBool (homotopy.converged res)) <$> rs) ∈ items.

(** The module installed over the stand-in core, a [Lasso] and a [LassoCV]
    constructed with the default arguments (the latter asked to fit an
    intercept), and the call the former makes on the example data. *)
Definition example_imports : Imports := @installed halving_core.

Definition example_lasso : @state example_imports :=
  (@Lasso.__init__ example_imports Lasso.defaults (@fresh halving_core)).2.

Definition example_lassocv : @state example_imports :=
  (@LassoCV.__init__ example_imports
     (LassoCV.mkargs (PyFloat 1e-3) (PyInt 100) PyNone (PyBool true) (PyInt 100)
        (PyFloat 1e-6) PyNone (PyInt 0) (PyInt 10) (PyInt 50000) (PyInt 10) (PyInt 0)
        (PyBool false) (PyStr "auto"))
     (@fresh halving_core)).2.

Definition example_call : Kw.t :=
  Kw.call example_X example_y example_alphas (PyInt 100) (PyInt 10) (PyInt 50000)
    (PyInt 10) (PyInt 0) (PyFloat 1e-6) (PyInt 0).

(** A [Lasso] constructed with [tol=0.], and one constructed with
    [verbose=1]. *)
Definition zero_tol_args : Lasso.args :=
  Lasso.mkargs (PyFloat 1) (PyInt 100) (PyInt 10) (PyInt 50000) (PyInt 10) (PyInt 0)
    (PyFloat 0) (PyInt 0).

Definition verbose_lasso : @state example_imports :=
  (@Lasso.__init__ example_imports
     (Lasso.mkargs (PyFloat 1) (PyInt 100) (PyInt 10) (PyInt 50000) (PyInt 10) (PyInt 1)
        (PyFloat 1e-6) (PyInt 0))
     (@fresh halving_core)).2.

(** The two attributes as the constructors force them, and what it is for
    an operation on an instance to keep them so. *)
Definition forced (attrs : gmap string pyval) : Prop :=
  attrs !! "fit_intercept" = Some (PyBool false) /\
  attrs !! "return_n_iter" = Some (PyBool true).

Definition keeps_forced `{Imports} {A : Type} (op : M A) (st : state) : Prop :=
  forced (self_attrs st) -> forced (self_attrs (op st).2).

(** The public operations on a constructed [LassoCV]: the [path] method the
    class defines, and two it inherits and does not override, [set_params]
    of scikit-learn's [BaseEstimator] and the attribute assignment
    [self.name = value] of [object]. *)
Inductive LassoCV_operation : Type :=
| call_path (X y alphas : pyval) (kwargs : gmap string pyval)
| call_set_params (name : string) (value : pyval)
| assign (name : string) (value : pyval).

Definition LassoCV_perform `{Imports} (op : LassoCV_operation) : M unit :=
  match op with
  | call_path X y alphas kwargs => LassoCV.path X y alphas kwargs ≫= λ _, mret tt
  | call_set_params name value => sklearn.set_params LassoCV.parameters name value
  | assign name value => setattr name value
  end.

(** ** Further vocabulary *)

(** The attributes [Lasso.__init__] and [LassoCV.__init__] assign themselves,
    after the base-class constructor has run. *)
Definition Lasso_assigned : list string :=
  ["verbose"; "gap_freq"; "max_epochs"; "p0"; "prune"; "fit_intercept"; "return_n_iter"].

Definition LassoCV_assigned : list string :=
  ["gap_freq"; "max_epochs"; "p0"; "prune"; "fit_intercept"; "return_n_iter"].

(** Imported code that follows a script, to run the classes on: [celer_path]
    answers every call with [answer] and counts the calls it served, and the
    base-class constructors either behave as scikit-learn's, or store their
    first parameter and then raise [base_error]. *)
Definition scripted (answer : outcome pyval) (base_error : option pyexn) : Imports :=
  {| World := nat;
     celer_path := fun _ served => (answer, S served);
     Lasso_sklearn_init := fun alpha tol max_iter self =>
       match base_error with
       | Some e => (Raise e, <["alpha" := alpha]> self)
       | None => sklearn.Lasso_init alpha tol max_iter self
       end;
     LassoCV_sklearn_init := fun eps n_alphas alphas max_iter tol cv fit_intercept verbose self =>
       match base_error with
       | Some e => (Raise e, <["eps" := eps]> self)
       | None => sklearn.LassoCV_init eps n_alphas alphas max_iter tol cv fit_intercept verbose self
       end |}.

(** An instance of either class over scripted imports, constructed with the
    default arguments in a world where no call has been served. *)
Definition scripted_lasso (answer : outcome pyval) : @state (scripted answer None) :=
  (@Lasso.__init__ (scripted answer None) Lasso.defaults
     (@mkstate (scripted answer None) ∅ [] 0%nat)).2.

Definition scripted_lassocv (answer : outcome pyval) : @state (scripted answer None) :=
  (@LassoCV.__init__ (scripted answer None) LassoCV.defaults
     (@mkstate (scripted answer None) ∅ [] 0%nat)).2.

(** The example [Lasso] with its [tol] attribute deleted, and with its
    [alpha] attribute reassigned. *)
Definition lasso_without_tol : @state example_imports :=
  @mkstate example_imports (delete "tol" (self_attrs example_lasso)) [] (world example_lasso).

Definition lasso_other_alpha : @state example_imports :=
  @mkstate example_imports (<["alpha" := PyFloat 5]> (self_attrs example_lasso)) []
    (world example_lasso).

(** * Properties *)

(** ** The two [path] methods as functions of the state *)

Section Glue.
Context `{Imports}.

Lemma bind_getattr {B : Type} (name : string) (k : pyval -> M B) (st : state) :
  (getattr name ≫= k) st =
    match attribute (self_attrs st) name with
    | Return v => k v st
    | Raise e => (Raise e, st)
    end.
Proof.
  unfold mbind, M_bind, getattr, attribute.
  destruct (self_attrs st !! name); reflexivity.
Qed.

Lemma finish_path (tail : list pyval) (k : Kw.t) (st : state) :
  (call_celer_path k ≫= λ r, unpack3 r ≫= λ '(a, c, g), mret (PyTuple ([a; c; g] ++ tail))) st =
    (outcome_bind (celer_path k (world st)).1 (repack tail),
     mkstate _ (self_attrs st) (calls st ++ [k]) (celer_path k (world st)).2).
Proof.
  unfold mbind, M_bind, call_celer_path.
  destruct (celer_path k (world st)) as [[v|e] wd]; simpl; [|reflexivity].
  unfold unpack3, repack.
  destruct (iter_items v) as [[|a [|b [|c [|d l]]]]|]; reflexivity.
Qed.

Lemma Lasso_path_run (X y alphas : pyval) (kwargs : gmap string pyval) (st : state) :
  Lasso.path X y alphas kwargs st = path_run [PyList [PyInt 1]] X y alphas st.
Proof.
  unfold Lasso.path, path_run, stored_call.
  repeat (rewrite bind_getattr; destruct (attribute (self_attrs st) _); simpl; [|reflexivity]).
  apply (finish_path [PyList [PyInt 1]]).
Qed.

Lemma LassoCV_path_run (X y alphas : pyval) (kwargs : gmap string pyval) (st : state) :
  LassoCV.path X y alphas kwargs st = path_run [] X y alphas st.
Proof.
  unfold LassoCV.path, path_run, stored_call.
  repeat (rewrite bind_getattr; destruct (attribute (self_attrs st) _); simpl; [|reflexivity]).
  apply (finish_path []).
Qed.

Lemma stored_call_some (attrs : gmap string pyval) (X y alphas : pyval)
    (max_iter gap_freq max_epochs p0 verbose tol prune : pyval) :
  attrs !! "max_iter" = Some max_iter ->
  attrs !! "gap_freq" = Some gap_freq ->
  attrs !! "max_epochs" = Some max_epochs ->
  attrs !! "p0" = Some p0 ->
  attrs !! "verbose" = Some verbose ->
  attrs !! "tol" = Some tol ->
  attrs !! "prune" = Some prune ->
  stored_call attrs X y alphas =
    Return (Kw.call X y alphas max_iter gap_freq max_epochs p0 verbose tol prune).
Proof.
  intros E1 E2 E3 E4 E5 E6 E7. unfold stored_call, attribute.
  now rewrite E1, E2, E3, E4, E5, E6, E7.
Qed.

Lemma stored_call_return (attrs : gmap string pyval) (X y alphas : pyval) (k : Kw.t) :
  stored_call attrs X y alphas = Return k ->
  Kw.X k = X /\ Kw.y k = y /\ Kw.alphas k = alphas /\
  attrs !! "max_iter" = Some (Kw.max_iter k) /\
  attrs !! "gap_freq" = Some (Kw.gap_freq k) /\
  attrs !! "max_epochs" = Some (Kw.max_epochs k) /\
  attrs !! "p0" = Some (Kw.p0 k) /\
  attrs !! "verbose" = Some (Kw.verbose k) /\
  attrs !! "tol" = Some (Kw.tol k) /\
  attrs !! "prune" = Some (Kw.prune k).
Proof.
  unfold stored_call, attribute.
  repeat (destruct (attrs !! _); simpl; [|discriminate]).
  intros [= <-]. simpl. repeat split; reflexivity.
Qed.

Lemma stored_call_agree (attrs attrs' : gmap string pyval) (X y alphas : pyval) :
  (forall name, name ∈ configuration_names -> attrs !! name = attrs' !! name) ->
  stored_call attrs X y alphas = stored_call attrs' X y alphas.
Proof.
  intros E. unfold stored_call, attribute.
  rewrite !E by (unfold configuration_names; set_solver). reflexivity.
Qed.

Lemma stored_call_hush (attrs attrs' : gmap string pyval) (X y alphas : pyval) :
  (forall name, name ∈ configuration_names -> name <> "verbose" ->
     attrs !! name = attrs' !! name) ->
  is_Some (attrs !! "verbose") -> is_Some (attrs' !! "verbose") ->
  outcome_map hush (stored_call attrs X y alphas) =
  outcome_map hush (stored_call attrs' X y alphas).
Proof.
  intros E [v Ev] [v' Ev']. unfold stored_call, attribute.
  rewrite Ev, Ev'.
  rewrite !E by (unfold configuration_names; set_solver).
  destruct (attrs' !! "max_iter"); simpl; [|reflexivity].
  destruct (attrs' !! "gap_freq"); simpl; [|reflexivity].
  destruct (attrs' !! "max_epochs"); simpl; [|reflexivity].
  destruct (attrs' !! "p0"); simpl; [|reflexivity].
  destruct (attrs' !! "tol"); simpl; [|reflexivity].
  destruct (attrs' !! "prune"); reflexivity.
Qed.

Lemma path_run_attrs (tail : list pyval) (X y alphas : pyval) (st : state) :
  self_attrs (path_run tail X y alphas st).2 = self_attrs st.
Proof.
  unfold path_run. destruct (stored_call _ _ _ _); reflexivity.
Qed.

Lemma repack_return (tail : list pyval) (v r : pyval) :
  repack tail v = Return r ->
  exists a c g, iter_items v = Some [a; c; g] /\ r = PyTuple ([a; c; g] ++ tail).
Proof.
  unfold repack. destruct (iter_items v) as [[|a [|b [|c [|d l]]]]|]; try discriminate.
  intros [= <-]. eauto.
Qed.

Lemma path_run_return (tail : list pyval) (X y alphas : pyval) (st st' : state) (r : pyval) :
  path_run tail X y alphas st = (Return r, st') ->
  exists k v a c g,
    stored_call (self_attrs st) X y alphas = Return k /\
    celer_path k (world st) = (Return v, world st') /\
    iter_items v = Some [a; c; g] /\
    r = PyTuple ([a; c; g] ++ tail) /\
    st' = mkstate _ (self_attrs st) (calls st ++ [k]) (world st').
Proof.
  unfold path_run. destruct (stored_call _ _ _ _) as [k|e]; [|discriminate].
  cbv zeta. destruct (celer_path k (world st)) as [[v|e] wd] eqn:E; simpl; [|discriminate].
  intros [= Er <-]. apply repack_return in Er as (a & c & g & Ei & ->).
  exists k, v, a, c, g. simpl. auto.
Qed.

Lemma outcome_map_bind_repack (o : outcome pyval) (tail : list pyval) :
  outcome_map (components 3) (outcome_bind o (repack tail)) = outcome_bind o (repack []).
Proof.
  destruct o as [v|e]; [|reflexivity]. simpl. unfold repack.
  destruct (iter_items v) as [[|a [|b [|c [|d l]]]]|]; reflexivity.
Qed.

(** ** The constructors *)

Lemma Lasso_init_run (a : Lasso.args) (st : state) :
  Lasso.__init__ a st =
    match Lasso_sklearn_init (Lasso.alpha a) (Lasso.tol a) (Lasso.max_iter a) (self_attrs st) with
    | (Return _, attrs) =>
        (Return tt,
         mkstate _
           (<["return_n_iter" := PyBool true]> (<["fit_intercept" := PyBool false]>
            (<["prune" := Lasso.prune a]> (<["p0" := Lasso.p0 a]>
            (<["max_epochs" := Lasso.max_epochs a]> (<["gap_freq" := Lasso.gap_freq a]>
            (<["verbose" := Lasso.verbose a]> attrs)))))))
           (calls st) (world st))
    | (Raise e, attrs) => (Raise e, mkstate _ attrs (calls st) (world st))
    end.
Proof.
  unfold Lasso.__init__, mbind, M_bind, super_init.
  destruct (Lasso_sklearn_init _ _ _ _) as [[[]|e] attrs]; reflexivity.
Qed.

Lemma LassoCV_init_run (a : LassoCV.args) (st : state) :
  LassoCV.__init__ a st =
    match LassoCV_sklearn_init (LassoCV.eps a) (LassoCV.n_alphas a) (LassoCV.alphas a)
            (LassoCV.max_iter a) (LassoCV.tol a) (LassoCV.cv a) (LassoCV.fit_intercept a)
            (LassoCV.verbose a) (self_attrs st) with
    | (Return _, attrs) =>
        (Return tt,
         mkstate _
           (<["return_n_iter" := PyBool true]> (<["fit_intercept" := PyBool false]>
            (<["prune" := LassoCV.prune a]> (<["p0" := LassoCV.p0 a]>
            (<["max_epochs" := LassoCV.max_epochs a]>
            (<["gap_freq" := LassoCV.gap_freq a]> attrs))))))
           (calls st) (world st))
    | (Raise e, attrs) => (Raise e, mkstate _ attrs (calls st) (world st))
    end.
Proof.
  unfold LassoCV.__init__, mbind, M_bind, super_init.
  destruct (LassoCV_sklearn_init _ _ _ _ _ _ _ _ _) as [[[]|e] attrs]; reflexivity.
Qed.

End Glue.

(** ** The wrappers, for every behaviour of the imported code *)

Section Wrappers.
Context `{Imports}.

(** C2: [Lasso.path] is adapter glue.  On an instance that stores the seven
    configuration attributes, it calls [celer_path] exactly once, with [X],
    [y], [alphas] and the stored values unchanged; nothing else touches the
    world, and the instance is left as it was.  An exception of [celer_path]
    reaches the caller as it is, and the three values [celer_path] returns
    are returned unmodified as the first three components of the result. *)
Theorem Lasso_path_is_adapter_glue (X y alphas : pyval) (kwargs : gmap string pyval)
    (st : state) (max_iter gap_freq max_epochs p0 verbose tol prune : pyval) :
  self_attrs st !! "max_iter" = Some max_iter ->
  self_attrs st !! "gap_freq" = Some gap_freq ->
  self_attrs st !! "max_epochs" = Some max_epochs ->
  self_attrs st !! "p0" = Some p0 ->
  self_attrs st !! "verbose" = Some verbose ->
  self_attrs st !! "tol" = Some tol ->
  self_attrs st !! "prune" = Some prune ->
  let k := Kw.call X y alphas max_iter gap_freq max_epochs p0 verbose tol prune in
  let solver := celer_path k (world st) in
  let ran := Lasso.path X y alphas kwargs st in
  calls ran.2 = calls st ++ [k] /\
  world ran.2 = solver.2 /\
  self_attrs ran.2 = self_attrs st /\
  (forall e, solver.1 = Raise e -> ran.1 = Raise e) /\
  (forall v a c g, solver.1 = Return v -> iter_items v = Some [a; c; g] ->
     ran.1 = Return (PyTuple [a; c; g; PyList [PyInt 1]])).
Proof.
  intros E1 E2 E3 E4 E5 E6 E7 k solver ran. subst ran.
  rewrite Lasso_path_run. unfold path_run.
  rewrite (stored_call_some _ _ _ _ _ _ _ _ _ _ _ E1 E2 E3 E4 E5 E6 E7).
  fold k. cbv zeta. fold solver. simpl. repeat split.
  - intros e ->. reflexivity.
  - intros v a c g -> Ei. simpl. unfold repack. now rewrite Ei.
Qed.

(** C7: whenever [Lasso.path] returns, it returns a 4-tuple whose fourth
    component is the list [[1]], for every input, every instance and every
    behaviour of [celer_path]. *)
Theorem Lasso_path_fourth_component (X y alphas : pyval) (kwargs : gmap string pyval)
    (st st' : state) (r : pyval) :
  Lasso.path X y alphas kwargs st = (Return r, st') ->
  exists a c g, r = PyTuple [a; c; g; PyList [PyInt 1]].
Proof.
  rewrite Lasso_path_run. intros E.
  apply path_run_return in E as (k & v & a & c & g & _ & _ & _ & -> & _). eauto.
Qed.

(** C8 (amended): an instance constructed by [Lasso.__init__] or by
    [LassoCV.__init__], with any arguments, has [fit_intercept] equal to
    [False] and [return_n_iter] equal to [True], whatever [fit_intercept] was
    passed to [LassoCV.__init__] and whatever the base-class constructor
    stored; and the [path] method of either class, the one operation the
    classes define besides their constructors, changes no attribute of the
    instance. *)
Theorem fit_intercept_False_return_n_iter_True :
  (forall (a : Lasso.args) (st st' : state),
     Lasso.__init__ a st = (Return tt, st') ->
     self_attrs st' !! "fit_intercept" = Some (PyBool false) /\
     self_attrs st' !! "return_n_iter" = Some (PyBool true)) /\
  (forall (a : LassoCV.args) (st st' : state),
     LassoCV.__init__ a st = (Return tt, st') ->
     self_attrs st' !! "fit_intercept" = Some (PyBool false) /\
     self_attrs st' !! "return_n_iter" = Some (PyBool true)) /\
  (forall (X y alphas : pyval) (kwargs : gmap string pyval) (st : state),
     self_attrs (Lasso.path X y alphas kwargs st).2 = self_attrs st /\
     self_attrs (LassoCV.path X y alphas kwargs st).2 = self_attrs st).
Proof.
  split; [|split].
  - intros a st st'. rewrite Lasso_init_run.
    destruct (Lasso_sklearn_init _ _ _ _) as [[[]|e] attrs]; [|discriminate].
    intros [= <-]. simpl. now simplify_map_eq.
  - intros a st st'. rewrite LassoCV_init_run.
    destruct (LassoCV_sklearn_init _ _ _ _ _ _ _ _ _) as [[[]|e] attrs]; [|discriminate].
    intros [= <-]. simpl. now simplify_map_eq.
  - intros X y alphas kwargs st.
    rewrite Lasso_path_run, LassoCV_path_run. split; apply path_run_attrs.
Qed.

(** C9: on a [Lasso] instance and a [LassoCV] instance that store the same
    values under [max_iter], [gap_freq], [max_epochs], [p0], [verbose], [tol]
    and [prune], called on the same input in the same world, the first three
    components of what [Lasso.path] returns are the 3-tuple [LassoCV.path]
    returns (or both raise the same exception), and both make the same call
    of [celer_path] and leave the same world. *)
Theorem Lasso_path_agrees_with_LassoCV_path (X y alphas : pyval)
    (kwargs kwargs' : gmap string pyval) (lasso lassocv : state) :
  (forall name, name ∈ configuration_names ->
     self_attrs lasso !! name = self_attrs lassocv !! name) ->
  world lasso = world lassocv ->
  let ran := Lasso.path X y alphas kwargs lasso in
  let ran' := LassoCV.path X y alphas kwargs' lassocv in
  outcome_map (components 3) ran.1 = ran'.1 /\
  world ran.2 = world ran'.2 /\
  drop (length (calls lasso)) (calls ran.2) = drop (length (calls lassocv)) (calls ran'.2).
Proof.
  intros Ea Ew ran ran'. subst ran ran'.
  rewrite Lasso_path_run, LassoCV_path_run. unfold path_run.
  rewrite (stored_call_agree _ _ X y alphas Ea), Ew.
  destruct (stored_call (self_attrs lassocv) X y alphas) as [k|e]; simpl.
  - rewrite outcome_map_bind_repack, !drop_app_length. auto.
  - rewrite Ew, !drop_all. auto.
Qed.

End Wrappers.

(** ** The state machine of one alpha: termination and invariant *)

Section Solver.
Context `{homotopy.Core}.
Import homotopy.

Lemma run_terminal (pd : ProblemDescriptor) (alpha : float) (fuel : nat)
    (m : machine) (wd : SolverWorld) :
  terminal m = true -> run pd alpha fuel m wd = (m, wd).
Proof. intros T. destruct fuel; simpl; [reflexivity|]. now rewrite T. Qed.

Lemma run_S (pd : ProblemDescriptor) (alpha : float) (fuel : nat)
    (m : machine) (wd : SolverWorld) :
  run pd alpha (S fuel) m wd =
    if terminal m then (m, wd)
    else run pd alpha fuel (step pd alpha m wd).1 (step pd alpha m wd).2.
Proof. simpl. destruct (terminal m); [reflexivity|]. now destruct (step pd alpha m wd). Qed.

Lemma step_sound (pd : ProblemDescriptor) (alpha : float) (m : machine) (wd : SolverWorld) :
  (1 <= max_iter pd)%nat -> sound pd alpha m -> sound pd alpha (step pd alpha m wd).1.
Proof.
  intros Hpos Hm. destruct m as [prev|s n|s n|s n|r|r|e]; simpl in *; try assumption.
  - lia.
  - destruct (dual_gap (X pd) (y pd) alpha s) as [g s'] eqn:Eg.
    destruct (PrimFloat.ltb g _); simpl; [eauto|].
    destruct (PrimFloat.leb g (tol pd)) eqn:El; simpl.
    + split; [reflexivity|]. unfold recorded, certified. simpl. rewrite El.
      repeat split; try lia; try discriminate. eauto.
    + destruct (n <? max_iter pd)%nat eqn:En; simpl.
      * apply Nat.ltb_lt in En. exact En.
      * apply Nat.ltb_ge in En.
        split; [reflexivity|]. unfold recorded, certified. simpl. rewrite El.
        repeat split; try lia. eauto.
Qed.

Lemma run_sound (pd : ProblemDescriptor) (alpha : float) (fuel : nat) :
  (1 <= max_iter pd)%nat ->
  forall (m : machine) (wd : SolverWorld),
    sound pd alpha m -> sound pd alpha (run pd alpha fuel m wd).1.
Proof.
  intros Hpos. induction fuel as [|fuel IH]; intros m wd Hm; simpl; [assumption|].
  destruct (terminal m); [assumption|].
  pose proof (step_sound pd alpha m wd Hpos Hm) as Hs.
  destruct (step pd alpha m wd) as [m' wd']. now apply IH.
Qed.

(** From GROWING with [d] outer iterations left, three transitions per
    iteration reach a terminal state. *)
Lemma run_growing_terminal (pd : ProblemDescriptor) (alpha : float) (d : nat) :
  forall (n fuel : nat) (s : Subproblem) (wd : SolverWorld),
    max_iter pd = (n + S d)%nat -> (3 * S d <= fuel)%nat ->
    terminal (run pd alpha fuel (GROWING s n) wd).1 = true.
Proof.
  induction d as [|d IH]; intros n fuel s wd Hn Hf.
  - destruct fuel as [|[|[|fuel]]]; try lia. simpl.
    destruct (dual_gap _ _ _ _) as [g s'].
    destruct (PrimFloat.ltb g _); [now rewrite run_terminal|].
    destruct (PrimFloat.leb g (tol pd)); [now rewrite run_terminal|].
    replace (S n <? max_iter pd)%nat with false by (symmetry; apply Nat.ltb_ge; lia).
    now rewrite run_terminal.
  - destruct fuel as [|[|[|fuel]]]; try lia. simpl.
    destruct (dual_gap _ _ _ _) as [g s'].
    destruct (PrimFloat.ltb g _); [now rewrite run_terminal|].
    destruct (PrimFloat.leb g (tol pd)); [now rewrite run_terminal|].
    replace (S n <? max_iter pd)%nat with true by (symmetry; apply Nat.ltb_lt; lia).
    apply IH; lia.
Qed.

Lemma run_terminates (pd : ProblemDescriptor) (alpha : float)
    (previous_w : option pyval) (wd : SolverWorld) :
  (1 <= max_iter pd)%nat ->
  terminal (run pd alpha (1 + 3 * max_iter pd) (WARM_START previous_w) wd).1 = true.
Proof.
  intros Hpos. replace (1 + 3 * max_iter pd)%nat with (S (3 * max_iter pd)) by lia.
  rewrite run_S. cbn [terminal step].
  apply (run_growing_terminal pd alpha (max_iter pd - 1)); lia.
Qed.

Lemma solve_alpha_return (pd : ProblemDescriptor) (alpha : float)
    (previous_w : option pyval) (wd wd' : SolverWorld) (r : PathResult) :
  (1 <= max_iter pd)%nat ->
  solve_alpha pd alpha previous_w wd = (Return r, wd') -> recorded pd alpha r.
Proof.
  intros Hpos. unfold solve_alpha.
  pose proof (run_sound pd alpha (1 + 3 * max_iter pd) Hpos (WARM_START previous_w) wd I) as Hs.
  destruct (run pd alpha _ _ wd) as [[prev|s n|s n|s n|r'|r'|e] wd2];
    try discriminate; intros [= <- <-]; apply Hs.
Qed.

Lemma solve_alpha_raise (pd : ProblemDescriptor) (alpha : float)
    (previous_w : option pyval) (wd wd' : SolverWorld) (e : pyexn) :
  (1 <= max_iter pd)%nat ->
  solve_alpha pd alpha previous_w wd = (Raise e, wd') ->
  exists n, e = ConsistencyError alpha n.
Proof.
  intros Hpos. unfold solve_alpha.
  pose proof (run_sound pd alpha (1 + 3 * max_iter pd) Hpos (WARM_START previous_w) wd I) as Hs.
  pose proof (run_terminates pd alpha previous_w wd Hpos) as Ht.
  destruct (run pd alpha _ _ wd) as [[prev|s n|s n|s n|r'|r'|e'] wd2];
    try discriminate; intros [= <- <-]; apply Hs.
Qed.

Lemma path_loop_return (pd : ProblemDescriptor) (grid : list float) :
  (1 <= max_iter pd)%nat ->
  forall (previous_w : option pyval) (wd wd' : SolverWorld) (rs : list PathResult),
    path_loop pd grid previous_w wd = (Return rs, wd') -> Forall2 (recorded pd) grid rs.
Proof.
  intros Hpos. induction grid as [|alpha grid IH]; intros prev wd wd' rs; simpl.
  - intros [= <- <-]. constructor.
  - destruct (solve_alpha pd alpha prev wd) as [[r|e] wd1] eqn:E1; [|discriminate].
    destruct (path_loop pd grid (Some (w r)) wd1) as [[rs'|e] wd2] eqn:E2; [|discriminate].
    intros [= <- <-]. constructor; eauto using solve_alpha_return.
Qed.

Lemma path_loop_raise (pd : ProblemDescriptor) (grid : list float) :
  (1 <= max_iter pd)%nat ->
  forall (previous_w : option pyval) (wd wd' : SolverWorld) (e : pyexn),
    path_loop pd grid previous_w wd = (Raise e, wd') ->
    exists alpha n, alpha ∈ grid /\ e = ConsistencyError alpha n.
Proof.
  intros Hpos. induction grid as [|alpha grid IH]; intros prev wd wd' e; simpl.
  - discriminate.
  - destruct (solve_alpha pd alpha prev wd) as [[r|e1] wd1] eqn:E1.
    + destruct (path_loop pd grid (Some (w r)) wd1) as [[rs'|e2] wd2] eqn:E2; [discriminate|].
      intros [= <- <-]. apply IH in E2 as (a & n & Ha & ->).
      exists a, n. split; [now right|reflexivity].
    + intros [= <- <-]. apply solve_alpha_raise in E1 as [n ->]; [|assumption].
      exists alpha, n. split; [now left|reflexivity].
Qed.

End Solver.

(** ** The solver: verbosity, the world, and the configuration check *)

Section Observability.
Context `{homotopy.Core}.
Import homotopy.

Lemma step_machine_quiet (pd : ProblemDescriptor) (alpha : float) (m : machine)
    (wd wd' : SolverWorld) :
  (step pd alpha m wd).1 = (step (quiet pd) alpha m wd').1.
Proof.
  destruct m as [prev|s n|s n|s n|r|r|e]; simpl; try reflexivity.
  destruct (dual_gap (X pd) (y pd) alpha s) as [g s'].
  destruct (PrimFloat.ltb g _); [reflexivity|].
  destruct (PrimFloat.leb g (tol pd)); [reflexivity|].
  destruct (n <? max_iter pd)%nat; reflexivity.
Qed.

Lemma run_machine_quiet (pd : ProblemDescriptor) (alpha : float) (fuel : nat) :
  forall (m : machine) (wd wd' : SolverWorld),
    (run pd alpha fuel m wd).1 = (run (quiet pd) alpha fuel m wd').1.
Proof.
  induction fuel as [|fuel IH]; intros m wd wd'; [reflexivity|].
  rewrite !run_S. destruct (terminal m); [reflexivity|].
  rewrite (step_machine_quiet pd alpha m wd wd'). apply IH.
Qed.

Lemma solve_alpha_quiet (pd : ProblemDescriptor) (alpha : float)
    (previous_w : option pyval) (wd wd' : SolverWorld) :
  (solve_alpha pd alpha previous_w wd).1 = (solve_alpha (quiet pd) alpha previous_w wd').1.
Proof.
  unfold solve_alpha. change (max_iter (quiet pd)) with (max_iter pd).
  pose proof (run_machine_quiet pd alpha (1 + 3 * max_iter pd) (WARM_START previous_w) wd wd') as E.
  destruct (run pd alpha _ _ wd) as [m1 wd1], (run (quiet pd) alpha _ _ wd') as [m2 wd2].
  simpl in E. subst m2. destruct m1; reflexivity.
Qed.

Lemma path_loop_quiet (pd : ProblemDescriptor) (grid : list float) :
  forall (previous_w : option pyval) (wd wd' : SolverWorld),
    (path_loop pd grid previous_w wd).1 = (path_loop (quiet pd) grid previous_w wd').1.
Proof.
  induction grid as [|alpha grid IH]; intros prev wd wd'; [reflexivity|]. simpl.
  pose proof (solve_alpha_quiet pd alpha prev wd wd') as E.
  destruct (solve_alpha pd alpha prev wd) as [o1 wd1],
           (solve_alpha (quiet pd) alpha prev wd') as [o2 wd2].
  simpl in E. subst o2. destruct o1 as [r|e]; [|reflexivity].
  specialize (IH (Some (w r)) wd1 wd2).
  destruct (path_loop pd grid _ wd1) as [o1 wd1'],
           (path_loop (quiet pd) grid _ wd2) as [o2 wd2'].
  simpl in IH. subst o2. destruct o1; reflexivity.
Qed.

Lemma descriptor_hush (k k' : Kw.t) :
  hush k = hush k' -> quiet <$> descriptor k = quiet <$> descriptor k'.
Proof.
  destruct k, k'. unfold hush. simpl. intros [= -> -> -> -> -> -> -> -> ->].
  unfold descriptor. simpl.
  destruct (as_floats _) as [grid|]; simpl; [|reflexivity].
  destruct (as_float _) as [t|]; simpl; [|reflexivity].
  repeat (destruct (as_positive _); simpl; [|reflexivity]).
  destruct (_ && _); reflexivity.
Qed.

Lemma solve_hush (k k' : Kw.t) (wd wd' : SolverWorld) :
  hush k = hush k' -> (solve k wd).1 = (solve k' wd').1.
Proof.
  intros E. apply descriptor_hush in E. unfold solve.
  destruct (descriptor k) as [pd|], (descriptor k') as [pd'|]; try discriminate; [|reflexivity].
  simpl in E. apply (inj Some) in E.
  rewrite (path_loop_quiet pd (alphas pd) None wd wd').
  rewrite (path_loop_quiet pd' (alphas pd') None wd' wd').
  change (alphas pd) with (alphas (quiet pd)). change (alphas pd') with (alphas (quiet pd')).
  now rewrite E.
Qed.

Lemma celer_path_hush (k k' : Kw.t) (wd wd' : SolverWorld) :
  hush k = hush k' -> (celer_path k wd).1 = (celer_path k' wd').1.
Proof.
  intros E. unfold celer_path.
  pose proof (solve_hush k k' wd wd' E) as Es.
  destruct (solve k wd) as [o1 wd1], (solve k' wd') as [o2 wd2]. simpl in *. subst o2.
  assert (Kw.alphas k = Kw.alphas k') as -> by (apply (f_equal Kw.alphas) in E; exact E).
  reflexivity.
Qed.

Lemma descriptor_some (k : Kw.t) (pd : ProblemDescriptor) :
  descriptor k = Some pd ->
  X pd = Kw.X k /\ y pd = Kw.y k /\
  as_floats (Kw.alphas k) = Some (alphas pd) /\
  Kw.tol k = PyFloat (tol pd) /\
  (1 <= max_iter pd)%nat.
Proof.
  unfold descriptor.
  destruct (as_floats _) as [grid|]; simpl; [|discriminate].
  destruct (Kw.tol k) as [| | |t| | |] eqn:Et; simpl; try discriminate.
  destruct (as_positive (Kw.max_iter k)) as [mi|] eqn:E1; simpl; [|discriminate].
  destruct (as_positive (Kw.gap_freq k)) as [gf|]; simpl; [|discriminate].
  destruct (as_positive (Kw.max_epochs k)) as [me|]; simpl; [|discriminate].
  destruct (as_positive (Kw.p0 k)) as [p|]; simpl; [|discriminate].
  destruct (_ && _); [|discriminate]. intros [= <-]. simpl.
  repeat split; try reflexivity.
  destruct (Kw.max_iter k) as [| |z| | | |]; try discriminate. simpl in E1.
  destruct (0 <? z) eqn:Ez; [|discriminate]. injection E1 as <-.
  apply Z.ltb_lt in Ez. lia.
Qed.

Lemma invalid_no_descriptor (k : Kw.t) :
  invalid_configuration k -> descriptor k = None.
Proof.
  intros Hk. unfold descriptor.
  destruct (as_floats (Kw.alphas k)) as [grid|] eqn:Eg; simpl; [|reflexivity].
  destruct (as_float (Kw.tol k)) as [t|] eqn:Et; simpl; [|reflexivity].
  destruct (as_positive (Kw.max_iter k)) as [mi|] eqn:E1; simpl; [|reflexivity].
  destruct (as_positive (Kw.gap_freq k)) as [gf|] eqn:E2; simpl; [|reflexivity].
  destruct (as_positive (Kw.max_epochs k)) as [me|] eqn:E3; simpl; [|reflexivity].
  destruct (as_positive (Kw.p0 k)) as [p|] eqn:E4; simpl; [|reflexivity].
  enough (forallb (fun a => negb (PrimFloat.ltb a 0)) grid && negb (PrimFloat.leb t 0)
          && negb (n_features (Kw.X k) =? 0)%nat = false) as -> by reflexivity.
  destruct Hk as [items a Hi Ha Hn | Ht | Hx | v Hv Hn].
  - assert (mapM as_float items = Some grid) as Hm.
    { destruct (Kw.alphas k); simpl in *; try discriminate; congruence. }
    apply mapM_Some_1 in Hm. apply list_elem_of_lookup_1 in Ha as [i Ha].
    destruct (Forall2_lookup_l _ _ _ _ _ Hm Ha) as (f & Hf & Haf).
    destruct a; try discriminate. injection Haf as ->. simpl in Hn.
    assert (forallb (fun a => negb (PrimFloat.ltb a 0)) grid = false) as ->; [|reflexivity].
    apply not_true_is_false. intros Hall.
    apply forallb_forall with (x := f) in Hall;
      [|apply list_elem_of_In; eapply list_elem_of_lookup_2; eassumption].
    rewrite Hn in Hall. discriminate.
  - destruct (Kw.tol k); try discriminate. injection Et as ->. simpl in Ht.
    rewrite Ht. simpl. now rewrite andb_false_r.
  - rewrite Hx. simpl. now rewrite andb_false_r.
  - exfalso. 
    assert (forall u n, as_positive u = Some n -> nonpositive u = false) as Hp.
    { intros [] n; simpl; try reflexivity; try discriminate. destruct (0 <? z) eqn:Ez; [|discriminate].
      intros _. apply Z.ltb_lt in Ez. apply Z.leb_gt. exact Ez. }
    set_unfold in Hv. destruct Hv as [->|[->|[->|[->|[]]]]];
      [apply Hp in E1|apply Hp in E2|apply Hp in E3|apply Hp in E4]; congruence.
Qed.
End Observability.

(** ** The solver: what verbosity leaves alone *)

Section Work.
Context `{homotopy.Core}.
Import homotopy.

Lemma step_work_quiet (pd : ProblemDescriptor) (alpha : float) (m : machine)
    (wd wd' : SolverWorld) :
  work wd = work wd' ->
  work (step pd alpha m wd).2 = work (step (quiet pd) alpha m wd').2.
Proof.
  intros E. destruct m as [prev|s n|s n|s n|r|r|e]; simpl; try (now rewrite E).
  destruct (dual_gap (X pd) (y pd) alpha s) as [g s'].
  assert (work (printed (verbose pd) (gap_line alpha n g) (did (checked alpha n g) wd)) =
          work (did (checked alpha n g) wd')) as Ew.
  { unfold printed. destruct (verbose pd); simpl; now rewrite E. }
  destruct (PrimFloat.ltb g _); [exact Ew|].
  destruct (PrimFloat.leb g (tol pd)); [exact Ew|].
  destruct (n <? max_iter pd)%nat; exact Ew.
Qed.

Lemma run_work_quiet (pd : ProblemDescriptor) (alpha : float) (fuel : nat) :
  forall (m : machine) (wd wd' : SolverWorld),
    work wd = work wd' ->
    work (run pd alpha fuel m wd).2 = work (run (quiet pd) alpha fuel m wd').2.
Proof.
  induction fuel as [|fuel IH]; intros m wd wd' E; [exact E|].
  rewrite !run_S. destruct (terminal m); [exact E|].
  rewrite <- (step_machine_quiet pd alpha m wd wd').
  apply IH, step_work_quiet, E.
Qed.

Lemma solve_alpha_work_quiet (pd : ProblemDescriptor) (alpha : float)
    (previous_w : option pyval) (wd wd' : SolverWorld) :
  work wd = work wd' ->
  work (solve_alpha pd alpha previous_w wd).2 =
  work (solve_alpha (quiet pd) alpha previous_w wd').2.
Proof.
  intros E. unfold solve_alpha. change (max_iter (quiet pd)) with (max_iter pd).
  pose proof (run_machine_quiet pd alpha (1 + 3 * max_iter pd) (WARM_START previous_w) wd wd') as Em.
  pose proof (run_work_quiet pd alpha (1 + 3 * max_iter pd) (WARM_START previous_w) wd wd' E) as Ew.
  destruct (run pd alpha _ _ wd) as [m1 wd1], (run (quiet pd) alpha _ _ wd') as [m2 wd2].
  simpl in Em, Ew. subst m2. destruct m1; exact Ew.
Qed.

Lemma path_loop_work_quiet (pd : ProblemDescriptor) (grid : list float) :
  forall (previous_w : option pyval) (wd wd' : SolverWorld),
    work wd = work wd' ->
    work (path_loop pd grid previous_w wd).2 =
    work (path_loop (quiet pd) grid previous_w wd').2.
Proof.
  induction grid as [|alpha grid IH]; intros prev wd wd' E; [exact E|]. simpl.
  pose proof (solve_alpha_quiet pd alpha prev wd wd') as Eo.
  pose proof (solve_alpha_work_quiet pd alpha prev wd wd' E) as Ew.
  destruct (solve_alpha pd alpha prev wd) as [o1 wd1],
           (solve_alpha (quiet pd) alpha prev wd') as [o2 wd2].
  simpl in Eo, Ew. subst o2. destruct o1 as [r|e]; [|exact Ew].
  pose proof (path_loop_quiet pd grid (Some (w r)) wd1 wd2) as Eo'.
  specialize (IH (Some (w r)) wd1 wd2 Ew).
  destruct (path_loop pd grid _ wd1) as [o1 wd1'],
           (path_loop (quiet pd) grid _ wd2) as [o2 wd2'].
  simpl in Eo', IH. subst o2. destruct o1; exact IH.
Qed.

Lemma celer_path_work_hush (k k' : Kw.t) (wd wd' : SolverWorld) :
  hush k = hush k' -> work wd = work wd' ->
  work (celer_path k wd).2 = work (celer_path k' wd').2.
Proof.
  intros Eh E. unfold celer_path.
  assert (work (solve k wd).2 = work (solve k' wd').2) as Es.
  { apply descriptor_hush in Eh. unfold solve.
    destruct (descriptor k) as [pd|], (descriptor k') as [pd'|]; try discriminate; [|exact E].
    simpl in Eh. apply (inj Some) in Eh.
    rewrite (path_loop_work_quiet pd (alphas pd) None wd wd' E).
    rewrite (path_loop_work_quiet pd' (alphas pd') None wd' wd' eq_refl).
    change (alphas pd) with (alphas (quiet pd)). change (alphas pd') with (alphas (quiet pd')).
    now rewrite Eh. }
  destruct (solve k wd), (solve k' wd'). exact Es.
Qed.

Lemma step_stdout_quiet (pd : ProblemDescriptor) (alpha : float) (m : machine)
    (wd : SolverWorld) :
  verbose pd = false -> stdout (step pd alpha m wd).2 = stdout wd.
Proof.
  intros Ev. destruct m as [prev|s n|s n|s n|r|r|e]; simpl; try reflexivity.
  destruct (dual_gap (X pd) (y pd) alpha s) as [g s']. rewrite Ev. simpl.
  destruct (PrimFloat.ltb g _); [reflexivity|].
  destruct (PrimFloat.leb g (tol pd)); [reflexivity|].
  destruct (n <? max_iter pd)%nat; reflexivity.
Qed.

Lemma run_stdout_quiet (pd : ProblemDescriptor) (alpha : float) (fuel : nat) :
  verbose pd = false ->
  forall (m : machine) (wd : SolverWorld), stdout (run pd alpha fuel m wd).2 = stdout wd.
Proof.
  intros Ev. induction fuel as [|fuel IH]; intros m wd; [reflexivity|].
  rewrite run_S. destruct (terminal m); [reflexivity|].
  rewrite IH. now apply step_stdout_quiet.
Qed.

Lemma path_loop_stdout_quiet (pd : ProblemDescriptor) (grid : list float) :
  verbose pd = false ->
  forall (previous_w : option pyval) (wd : SolverWorld),
    stdout (path_loop pd grid previous_w wd).2 = stdout wd.
Proof.
  intros Ev. induction grid as [|alpha grid IH]; intros prev wd; [reflexivity|]. simpl.
  assert (stdout (solve_alpha pd alpha prev wd).2 = stdout wd) as Es.
  { unfold solve_alpha.
    pose proof (run_stdout_quiet pd alpha (1 + 3 * max_iter pd) Ev (WARM_START prev) wd) as Er.
    destruct (run pd alpha _ _ wd) as [m1 wd1]. simpl in Er. destruct m1; exact Er. }
  destruct (solve_alpha pd alpha prev wd) as [[r|e] wd1]; [|exact Es].
  specialize (IH (Some (w r)) wd1).
  destruct (path_loop pd grid _ wd1) as [[rs|e] wd2]; simpl in *; congruence.
Qed.

Lemma celer_path_stdout_quiet (k : Kw.t) (wd : SolverWorld) :
  truthy (Kw.verbose k) = false -> stdout (celer_path k wd).2 = stdout wd.
Proof.
  intros Ev. unfold celer_path.
  assert (stdout (solve k wd).2 = stdout wd) as Es.
  { unfold solve. destruct (descriptor k) as [pd|] eqn:Ed; [|reflexivity].
    apply path_loop_stdout_quiet. unfold descriptor in Ed.
    destruct (as_floats _); simpl in Ed; [|discriminate].
    destruct (as_float _); simpl in Ed; [|discriminate].
    destruct (as_positive (Kw.max_iter k)); simpl in Ed; [|discriminate].
    destruct (as_positive (Kw.gap_freq k)); simpl in Ed; [|discriminate].
    destruct (as_positive (Kw.max_epochs k)); simpl in Ed; [|discriminate].
    destruct (as_positive (Kw.p0 k)); simpl in Ed; [|discriminate].
    destruct (_ && _); [|discriminate]. injection Ed as <-. exact Ev. }
  destruct (solve k wd). exact Es.
Qed.

End Work.

(** ** The classes over the solver of [celer/homotopy.py] *)

Section Installed.
Context `{homotopy.Core}.
#[local] Existing Instance installed.

Lemma stored_call_after_Lasso_init (a : Lasso.args) (st : state) (X y alphas : pyval) :
  stored_call (self_attrs (Lasso.__init__ a st).2) X y alphas =
    Return (Kw.call X y alphas (Lasso.max_iter a) (Lasso.gap_freq a) (Lasso.max_epochs a)
              (Lasso.p0 a) (Lasso.verbose a) (Lasso.tol a) (Lasso.prune a)).
Proof.
  rewrite Lasso_init_run. simpl. unfold sklearn.Lasso_init.
  apply stored_call_some; now simplify_map_eq.
Qed.

Lemma solve_return (k : Kw.t) (wd wd' : homotopy.SolverWorld) (rs : list homotopy.PathResult) :
  homotopy.solve k wd = (Return rs, wd') ->
  exists pd, homotopy.descriptor k = Some pd /\
             Forall2 (recorded pd) (homotopy.alphas pd) rs.
Proof.
  unfold homotopy.solve. destruct (homotopy.descriptor k) as [pd|] eqn:Ed; [|discriminate].
  intros E. exists pd. split; [reflexivity|].
  apply descriptor_some in Ed as (_ & _ & _ & _ & Hpos).
  eapply path_loop_return; eassumption.
Qed.

(** C3: a [Lasso] constructed with any arguments whose configuration is
    invalid for the call (a negative alpha in the grid, a non-positive [tol],
    a design matrix without features, a limit that is not positive) is
    rejected when the solver is invoked, before any solve begins: [path]
    raises the configuration error of [celer_path], and the world is the one
    before the call, so no warm start, working-set growth, epoch or gap check
    has happened and nothing was printed.  The constructor itself checks
    nothing. *)
Theorem invalid_configuration_rejected_before_any_solve
    (a : Lasso.args) (X y alphas : pyval) (kwargs : gmap string pyval) (st : state) :
  let k := Kw.call X y alphas (Lasso.max_iter a) (Lasso.gap_freq a) (Lasso.max_epochs a)
             (Lasso.p0 a) (Lasso.verbose a) (Lasso.tol a) (Lasso.prune a) in
  homotopy.invalid_configuration k ->
  exists self,
    Lasso.__init__ a st = (Return tt, self) /\
    Lasso.path X y alphas kwargs self =
      (Raise ConfigurationError, mkstate _ (self_attrs self) (calls st ++ [k]) (world st)).
Proof.
  intros k Hk. exists (Lasso.__init__ a st).2. split.
  - rewrite Lasso_init_run. reflexivity.
  - rewrite Lasso_path_run. unfold path_run.
    rewrite stored_call_after_Lasso_init. fold k. cbv zeta.
    rewrite Lasso_init_run. simpl.
    unfold homotopy.celer_path, homotopy.solve.
    rewrite (invalid_no_descriptor k Hk). reflexivity.
Qed.

Lemma path_run_hush (tail : list pyval) (X y alphas : pyval) (st st' : state) :
  outcome_map hush (stored_call (self_attrs st) X y alphas) =
  outcome_map hush (stored_call (self_attrs st') X y alphas) ->
  (path_run tail X y alphas st).1 = (path_run tail X y alphas st').1.
Proof.
  unfold path_run. intros E.
  destruct (stored_call (self_attrs st) X y alphas) as [k|e],
           (stored_call (self_attrs st') X y alphas) as [k'|e']; simpl in E; try discriminate.
  - assert (hush k = hush k') as Eh by congruence. simpl.
    now rewrite (celer_path_hush k k' (world st) (world st') Eh).
  - injection E as ->. reflexivity.
Qed.

Lemma path_run_world (tail : list pyval) (X y alphas : pyval) (st : state) :
  world (path_run tail X y alphas st).2 =
    match stored_call (self_attrs st) X y alphas with
    | Return k => (homotopy.celer_path k (world st)).2
    | Raise _ => world st
    end.
Proof. unfold path_run. destruct (stored_call _ _ _ _); reflexivity. Qed.

(** C4: two invocations of [Lasso.path] on the same [X], [y] and [alphas], on
    instances whose stored configurations differ only in [verbose], in any
    two worlds, have the same outcome: the same alphas, coefficient vectors
    and duality gaps, or the same exception.  They also do the same work (the
    same warm starts, growths, epochs and gap checks), and an invocation with
    [verbose] unset prints nothing: verbosity decides what is printed and
    nothing else. *)
Theorem verbose_has_no_effect_on_results (X y alphas : pyval)
    (kwargs kwargs' : gmap string pyval) (st st' : state) :
  (forall name, name ∈ configuration_names -> name <> "verbose" ->
     self_attrs st !! name = self_attrs st' !! name) ->
  is_Some (self_attrs st !! "verbose") ->
  is_Some (self_attrs st' !! "verbose") ->
  let ran := Lasso.path X y alphas kwargs st in
  let ran' := Lasso.path X y alphas kwargs' st' in
  ran.1 = ran'.1 /\
  (homotopy.work (world st) = homotopy.work (world st') ->
   homotopy.work (world ran.2) = homotopy.work (world ran'.2)) /\
  (forall v, self_attrs st !! "verbose" = Some v -> truthy v = false ->
     homotopy.stdout (world ran.2) = homotopy.stdout (world st)).
Proof.
  intros E Hv Hv' ran ran'. subst ran ran'. rewrite !Lasso_path_run.
  pose proof (stored_call_hush _ _ X y alphas E Hv Hv') as Eh.
  split; [now apply path_run_hush|]. split.
  - intros Ew. rewrite !path_run_world.
    destruct (stored_call (self_attrs st) X y alphas) as [k|e],
             (stored_call (self_attrs st') X y alphas) as [k'|e'];
      simpl in Eh; try discriminate; [|exact Ew].
    apply celer_path_work_hush; [congruence|exact Ew].
  - intros v Ev Et. rewrite path_run_world.
    destruct (stored_call (self_attrs st) X y alphas) as [k|e] eqn:Ek; [|reflexivity].
    apply celer_path_stdout_quiet.
    apply stored_call_return in Ek as (_ & _ & _ & _ & _ & _ & _ & Ekv & _).
    rewrite Ev in Ekv. injection Ekv as <-. exact Et.
Qed.

End Installed.

(** ** A grid of two alphas, for any numerical core *)

(** Whatever the numerical core computes, the solver records two results for
    the two alphas of the example, and the fourth component of what
    [Lasso.path] returns has one entry. *)
Section AnyCore.
Context `{homotopy.Core}.
#[local] Existing Instance installed.

Lemma two_alphas_one_count (r : pyval) (rs : list homotopy.PathResult) :
  (Lasso.path example_X example_y example_alphas ∅
     (Lasso.__init__ Lasso.defaults fresh).2).1 = Return r ->
  (homotopy.solve example_call (world (Lasso.__init__ Lasso.defaults fresh).2)).1 = Return rs ->
  ~ reports_iterations_and_convergence r rs.
Proof.
  intros Er Es (items & -> & _ & _ & H3 & _).
  rewrite Lasso_path_run in Er.
  destruct (path_run _ _ _ _ _) as [o st'] eqn:Ep. simpl in Er. subst o.
  apply path_run_return in Ep as (k & v & a & c & g & _ & _ & _ & Ei & _).
  injection Ei as ->. simpl in H3. injection H3 as H3.
  destruct (homotopy.solve example_call _) as [o wd] eqn:E. simpl in Es. subst o.
  apply solve_return in E as (pd & Ed & Hrs).
  apply descriptor_some in Ed as (_ & _ & Eg & _).
  simpl in Eg. injection Eg as Eg. rewrite <- Eg in Hrs. apply Forall2_length in Hrs.
  destruct rs as [|r1 [|r2 rs]]; discriminate.
Qed.
End AnyCore.


(** ** The classes on the example data *)

Example example_lasso_path :
  (@Lasso.path example_imports example_X example_y example_alphas ∅ example_lasso).1 =
    Return (PyTuple [example_alphas; PyList [PyList []; PyList []];
                     PyList [PyFloat 0x1p-20; PyFloat 0x1p-20]; PyList [PyInt 1]]).
Proof. vm_compute. reflexivity. Qed.

Example example_lassocv_path :
  (@LassoCV.path example_imports example_X example_y example_alphas ∅ example_lassocv).1 =
    Return (PyTuple [example_alphas; PyList [PyList []; PyList []];
                     PyList [PyFloat 0x1p-20; PyFloat 0x1p-20]]).
Proof. vm_compute. reflexivity. Qed.

Example example_solver_results :
  (@homotopy.solve halving_core example_call (world example_lasso)).1 =
    Return [homotopy.mkresult (PyList []) 0x1p-20 2 true;
            homotopy.mkresult (PyList []) 0x1p-20 2 true].
Proof. vm_compute. reflexivity. Qed.

Example example_missing_attribute :
  (@Lasso.path example_imports example_X example_y example_alphas ∅ (@fresh halving_core)).1 =
    Raise (AttributeError "max_iter").
Proof. vm_compute. reflexivity. Qed.

Example example_negative_alpha :
  (@Lasso.path example_imports example_X example_y (PyList [PyFloat 0.5; PyFloat (-0.1)]) ∅
     example_lasso).1 = Raise ConfigurationError.
Proof. vm_compute. reflexivity. Qed.

Example example_empty_feature_set :
  (@Lasso.path example_imports (PyList [PyList []; PyList []; PyList []]) example_y
     example_alphas ∅ example_lasso).1 = Raise ConfigurationError.
Proof. vm_compute. reflexivity. Qed.

Example example_verbose_prints :
  length (homotopy.stdout
            (world (@Lasso.path example_imports example_X example_y example_alphas ∅
                      verbose_lasso).2)) = 4%nat /\
  homotopy.stdout
    (world (@Lasso.path example_imports example_X example_y example_alphas ∅
              example_lasso).2) = [].
Proof. split; vm_compute; reflexivity. Qed.

Example example_unpacking_errors :
  not_three PyNone = TypeError "cannot unpack non-iterable NoneType object" /\
  not_three (PyFloat 0.5) = TypeError "cannot unpack non-iterable float object" /\
  not_three (PyTuple [PyNone; PyNone]) =
    ValueError "not enough values to unpack (expected 3, got 2)" /\
  not_three (PyList [PyNone; PyNone; PyNone; PyNone]) =
    ValueError "too many values to unpack (expected 3)".
Proof. repeat split; vm_compute; reflexivity. Qed.

Example example_set_params :
  (@sklearn.set_params example_imports LassoCV.parameters "fit_intercept" (PyBool true)
     example_lassocv).1 = Return tt /\
  self_attrs (@sklearn.set_params example_imports LassoCV.parameters "fit_intercept"
                (PyBool true) example_lassocv).2 !! "fit_intercept" = Some (PyBool true) /\
  self_attrs (@setattr example_imports "fit_intercept" (PyBool true) example_lassocv).2
    !! "fit_intercept" = Some (PyBool true) /\
  (@sklearn.set_params example_imports Lasso.parameters "fit_intercept" (PyBool true)
     example_lasso).1 = Raise (InvalidParameter "fit_intercept") /\
  (@sklearn.set_params example_imports LassoCV.parameters "return_n_iter" (PyBool false)
     example_lassocv).1 = Raise (InvalidParameter "return_n_iter").
Proof. repeat split; vm_compute; reflexivity. Qed.

Lemma example_lasso_call :
  stored_call (self_attrs example_lasso) example_X example_y example_alphas = Return example_call.
Proof. vm_compute. reflexivity. Qed.

(** C1: on the example data ([X = [[0, 0], [1, 1], [2, 2]]], [y = [0, 1, 2]],
    [alphas = [0.5, 0.1]]), on a [Lasso] constructed with the default
    arguments, the solver takes two outer iterations for each of the two
    alphas and both converge, while the fourth component [Lasso.path] returns
    is the literal [[1]]: what [Lasso.path] returns does not hold the
    outer-iteration count of each alpha, nor a convergence flag. *)
Lemma Lasso_path_reports_no_iteration_count :
  ~ (forall (r : pyval) (rs : list homotopy.PathResult),
       (Lasso.path example_X example_y example_alphas ∅ example_lasso).1 = Return r ->
       (@homotopy.solve halving_core example_call (world example_lasso)).1 = Return rs ->
       reports_iterations_and_convergence r rs).
Proof.
  intros Hc.
  edestruct Hc as (items & Hr & _ & _ & H3 & _); [vm_compute; reflexivity ..|].
  injection Hr as <-. vm_compute in H3. discriminate H3.
Qed.

(** ** The theorems at the example *)

Lemma run_as_pair `{Imports} {A : Type} (m : M A) (st : state) (o : outcome A) :
  (m st).1 = o -> m st = (o, (m st).2).
Proof. intros <-. apply surjective_pairing. Qed.

Lemma Lasso_path_is_adapter_glue_witness :
  calls (@Lasso.path example_imports example_X example_y example_alphas ∅ example_lasso).2 =
    calls example_lasso ++ [example_call].
Proof.
  refine (proj1 (@Lasso_path_is_adapter_glue example_imports example_X example_y
                   example_alphas ∅ example_lasso (PyInt 100) (PyInt 10) (PyInt 50000)
                   (PyInt 10) (PyInt 0) (PyFloat 1e-6) (PyInt 0) _ _ _ _ _ _ _));
    vm_compute; reflexivity.
Defined.

Lemma Lasso_path_fourth_component_witness :
  exists a c g,
    (@Lasso.path example_imports example_X example_y example_alphas ∅ example_lasso).1 =
      Return (PyTuple [a; c; g; PyList [PyInt 1]]).
Proof.
  destruct (@Lasso_path_fourth_component example_imports _ _ _ _ _ _ _
              (run_as_pair _ _ _ example_lasso_path)) as (a & c & g & E).
  exists a, c, g. rewrite example_lasso_path. now rewrite E.
Defined.

Lemma example_configurations_agree (name : string) :
  name ∈ configuration_names ->
  self_attrs example_lasso !! name = self_attrs example_lassocv !! name.
Proof.
  unfold configuration_names. intros Hn.
  repeat (apply elem_of_cons in Hn as [->|Hn]; [vm_compute; reflexivity|]).
  now apply elem_of_nil in Hn.
Qed.

Lemma example_worlds_agree : world example_lasso = world example_lassocv.
Proof. vm_compute. reflexivity. Qed.

Lemma Lasso_path_agrees_with_LassoCV_path_witness :
  outcome_map (components 3)
    (@Lasso.path example_imports example_X example_y example_alphas ∅ example_lasso).1 =
  (@LassoCV.path example_imports example_X example_y example_alphas ∅ example_lassocv).1.
Proof.
  exact (proj1 (@Lasso_path_agrees_with_LassoCV_path example_imports example_X example_y
                  example_alphas ∅ ∅ example_lasso example_lassocv
                  example_configurations_agree example_worlds_agree)).
Defined.

Lemma fit_intercept_False_return_n_iter_True_witness :
  self_attrs example_lassocv !! "fit_intercept" = Some (PyBool false) /\
  self_attrs example_lassocv !! "return_n_iter" = Some (PyBool true).
Proof.
  refine (proj1 (proj2 (@fit_intercept_False_return_n_iter_True example_imports))
            (LassoCV.mkargs (PyFloat 1e-3) (PyInt 100) PyNone (PyBool true) (PyInt 100)
               (PyFloat 1e-6) PyNone (PyInt 0) (PyInt 10) (PyInt 50000) (PyInt 10)
               (PyInt 0) (PyBool false) (PyStr "auto"))
            (@fresh halving_core) example_lassocv _).
  apply run_as_pair. reflexivity.
Defined.

(** C8 (counterexample): not every public operation on a constructed
    [LassoCV] keeps the two attributes.  [fit_intercept] is a parameter of
    [LassoCV.__init__], so on the example instance, where [fit_intercept] is
    [False], the inherited [set_params(fit_intercept=True)] is accepted and
    leaves [fit_intercept] equal to [True]; the assignment
    [self.fit_intercept = True] does the same. *)
Lemma LassoCV_set_params_changes_fit_intercept :
  ~ (forall op : LassoCV_operation,
       keeps_forced (@LassoCV_perform example_imports op) example_lassocv).
Proof.
  intros Hk.
  destruct (Hk (call_set_params "fit_intercept" (PyBool true))) as [Hf _].
  - split; vm_compute; reflexivity.
  - vm_compute in Hf. discriminate Hf.
Qed.

Lemma invalid_configuration_rejected_before_any_solve_witness :
  exists self : @state example_imports,
    @Lasso.__init__ example_imports zero_tol_args (@fresh halving_core) = (Return tt, self) /\
    (@Lasso.path example_imports example_X example_y example_alphas ∅ self).1 =
      Raise ConfigurationError /\
    world (@Lasso.path example_imports example_X example_y example_alphas ∅ self).2 =
      homotopy.mkworld [] [].
Proof.
  destruct (@invalid_configuration_rejected_before_any_solve halving_core zero_tol_args
              example_X example_y example_alphas ∅ (@fresh halving_core))
    as (self & Hi & Hp).
  - apply homotopy.nonpositive_tol. reflexivity.
  - exists self. unfold example_imports. rewrite Hp. auto.
Defined.

Lemma verbose_has_no_effect_on_results_witness :
  (@Lasso.path example_imports example_X example_y example_alphas ∅ example_lasso).1 =
  (@Lasso.path example_imports example_X example_y example_alphas ∅ verbose_lasso).1.
Proof.
  apply (@verbose_has_no_effect_on_results halving_core).
  - unfold configuration_names. intros name Hn Hv.
    repeat (apply elem_of_cons in Hn as [->|Hn];
            [first [vm_compute; reflexivity | exfalso; apply Hv; reflexivity]|]).
    now apply elem_of_nil in Hn.
  - exists (PyInt 0). vm_compute. reflexivity.
  - exists (PyInt 1). vm_compute. reflexivity.
Defined.

(** * Further properties of the two classes *)

Section Constructors.
Context `{Imports}.

(** X1: when the base-class constructor returns, [Lasso.__init__] returns and
    the instance holds [verbose], [gap_freq], [max_epochs], [p0] and [prune]
    exactly as they were passed, whatever the base class had stored under
    these names; every attribute other than the seven the constructor assigns
    (so [alpha], [tol] and [max_iter] too) is as the base-class constructor
    left it, and neither a call of [celer_path] nor a change of the world
    happens. *)
Theorem Lasso_init_stores_its_parameters (a : Lasso.args) (st : state)
    (base : gmap string pyval) :
  Lasso_sklearn_init (Lasso.alpha a) (Lasso.tol a) (Lasso.max_iter a) (self_attrs st) =
    (Return tt, base) ->
  exists self,
    Lasso.__init__ a st = (Return tt, self) /\
    self_attrs self !! "verbose" = Some (Lasso.verbose a) /\
    self_attrs self !! "gap_freq" = Some (Lasso.gap_freq a) /\
    self_attrs self !! "max_epochs" = Some (Lasso.max_epochs a) /\
    self_attrs self !! "p0" = Some (Lasso.p0 a) /\
    self_attrs self !! "prune" = Some (Lasso.prune a) /\
    (forall name, name ∉ Lasso_assigned -> self_attrs self !! name = base !! name) /\
    calls self = calls st /\ world self = world st.
Proof.
  intros Eb. rewrite Lasso_init_run, Eb. eexists. split; [reflexivity|]. simpl.
  repeat split; try (now simplify_map_eq).
  intros name Hn. unfold Lasso_assigned in Hn.
  rewrite !lookup_insert_ne; [reflexivity|..]; intros <-; apply Hn; set_solver.
Qed.

(** X2: when the base-class constructor returns, [LassoCV.__init__] returns
    and the instance holds [gap_freq], [max_epochs], [p0] and [prune] exactly
    as they were passed; every attribute other than the six the constructor
    assigns (so [verbose], [tol] and [max_iter], which [path] reads, too) is
    as the base-class constructor left it. *)
Theorem LassoCV_init_stores_its_parameters (a : LassoCV.args) (st : state)
    (base : gmap string pyval) :
  LassoCV_sklearn_init (LassoCV.eps a) (LassoCV.n_alphas a) (LassoCV.alphas a)
    (LassoCV.max_iter a) (LassoCV.tol a) (LassoCV.cv a) (LassoCV.fit_intercept a)
    (LassoCV.verbose a) (self_attrs st) = (Return tt, base) ->
  exists self,
    LassoCV.__init__ a st = (Return tt, self) /\
    self_attrs self !! "gap_freq" = Some (LassoCV.gap_freq a) /\
    self_attrs self !! "max_epochs" = Some (LassoCV.max_epochs a) /\
    self_attrs self !! "p0" = Some (LassoCV.p0 a) /\
    self_attrs self !! "prune" = Some (LassoCV.prune a) /\
    (forall name, name ∉ LassoCV_assigned -> self_attrs self !! name = base !! name) /\
    calls self = calls st /\ world self = world st.
Proof.
  intros Eb. rewrite LassoCV_init_run, Eb. eexists. split; [reflexivity|]. simpl.
  repeat split; try (now simplify_map_eq).
  intros name Hn. unfold LassoCV_assigned in Hn.
  rewrite !lookup_insert_ne; [reflexivity|..]; intros <-; apply Hn; set_solver.
Qed.

(** X3: an exception of the base-class constructor leaves [Lasso.__init__]
    and [LassoCV.__init__] as it is, and the instance is exactly as the
    base-class constructor left it when it raised: what the base class had
    assigned by then stays, and none of the assignments that follow the
    [super().__init__] call is made, so [fit_intercept] and [return_n_iter]
    are not forced on such an instance.  No call of [celer_path] happens and
    the world is unchanged. *)
Theorem init_passes_on_the_base_exception (e : pyexn) (st : state)
    (base : gmap string pyval) :
  (forall a : Lasso.args,
     Lasso_sklearn_init (Lasso.alpha a) (Lasso.tol a) (Lasso.max_iter a) (self_attrs st) =
       (Raise e, base) ->
     Lasso.__init__ a st = (Raise e, mkstate _ base (calls st) (world st))) /\
  (forall a : LassoCV.args,
     LassoCV_sklearn_init (LassoCV.eps a) (LassoCV.n_alphas a) (LassoCV.alphas a)
       (LassoCV.max_iter a) (LassoCV.tol a) (LassoCV.cv a) (LassoCV.fit_intercept a)
       (LassoCV.verbose a) (self_attrs st) = (Raise e, base) ->
     LassoCV.__init__ a st = (Raise e, mkstate _ base (calls st) (world st))).
Proof.
  split; intros a Eb.
  - now rewrite Lasso_init_run, Eb.
  - now rewrite LassoCV_init_run, Eb.
Qed.

(** X4: [LassoCV.__init__] accepts [normalize] and [precompute] and does
    nothing with them: they are neither passed to the base class nor stored,
    so the constructed instance is the same whatever their values. *)
Theorem LassoCV_init_ignores_normalize_and_precompute
    (a : LassoCV.args) (normalize precompute : pyval) (st : state) :
  LassoCV.__init__
    (LassoCV.mkargs (LassoCV.eps a) (LassoCV.n_alphas a) (LassoCV.alphas a)
       (LassoCV.fit_intercept a) (LassoCV.max_iter a) (LassoCV.tol a) (LassoCV.cv a)
       (LassoCV.verbose a) (LassoCV.gap_freq a) (LassoCV.max_epochs a) (LassoCV.p0 a)
       (LassoCV.prune a) normalize precompute) st =
  LassoCV.__init__ a st.
Proof. rewrite !LassoCV_init_run. reflexivity. Qed.

End Constructors.

Section Paths.
Context `{Imports}.

Lemma stored_call_missing (attrs : gmap string pyval) (X y alphas : pyval)
    (before after : list string) (name : string) :
  configuration_names = before ++ name :: after ->
  (forall n, n ∈ before -> is_Some (attrs !! n)) ->
  attrs !! name = None ->
  stored_call attrs X y alphas = Raise (AttributeError name).
Proof.
  unfold configuration_names. intros Es Hb Hn.
  assert (forall n, n ∈ before -> exists v, attribute attrs n = Return v) as Hb'.
  { intros n Hin. destruct (Hb n Hin) as [v Ev]. exists v. unfold attribute. now rewrite Ev. }
  assert (attribute attrs name = Raise (AttributeError name)) as Hn'.
  { unfold attribute. now rewrite Hn. }
  clear Hb Hn. unfold stored_call.
  repeat (destruct before as [|b before];
          [ injection Es as <- _; rewrite Hn'; reflexivity
          | destruct (Hb' b ltac:(left)) as [? Hv];
            assert (forall n, n ∈ before -> exists v, attribute attrs n = Return v) as Hb''
              by (intros n Hin; apply Hb'; now right);
            clear Hb'; rename Hb'' into Hb';
            injection Es as <- Es; rewrite Hv; simpl; clear Hv ]).
  destruct before; discriminate Es.
Qed.

(** X5: on an instance that lacks one of the seven configuration attributes,
    [Lasso.path] and [LassoCV.path] raise [AttributeError] for the first
    missing one in the order of the keywords of the call ([max_iter],
    [gap_freq], [max_epochs], [p0], [verbose], [tol], [prune]); [celer_path]
    is not called and nothing changes. *)
Theorem path_missing_attribute (X y alphas : pyval) (kwargs : gmap string pyval)
    (st : state) (before after : list string) (name : string) :
  configuration_names = before ++ name :: after ->
  (forall n, n ∈ before -> is_Some (self_attrs st !! n)) ->
  self_attrs st !! name = None ->
  Lasso.path X y alphas kwargs st = (Raise (AttributeError name), st) /\
  LassoCV.path X y alphas kwargs st = (Raise (AttributeError name), st).
Proof.
  intros Es Hb Hn. rewrite Lasso_path_run, LassoCV_path_run. unfold path_run.
  now rewrite (stored_call_missing _ X y alphas before after name Es Hb Hn).
Qed.

(** X6: [LassoCV.path] is the same adapter as [Lasso.path] without the fourth
    component: on an instance that stores the seven configuration attributes
    it calls [celer_path] exactly once with [X], [y], [alphas] and the stored
    values, leaves the instance as it was, passes an exception of
    [celer_path] on, and returns the three values of [celer_path] as a
    3-tuple. *)
Theorem LassoCV_path_is_adapter_glue (X y alphas : pyval) (kwargs : gmap string pyval)
    (st : state) (max_iter gap_freq max_epochs p0 verbose tol prune : pyval) :
  self_attrs st !! "max_iter" = Some max_iter ->
  self_attrs st !! "gap_freq" = Some gap_freq ->
  self_attrs st !! "max_epochs" = Some max_epochs ->
  self_attrs st !! "p0" = Some p0 ->
  self_attrs st !! "verbose" = Some verbose ->
  self_attrs st !! "tol" = Some tol ->
  self_attrs st !! "prune" = Some prune ->
  let k := Kw.call X y alphas max_iter gap_freq max_epochs p0 verbose tol prune in
  let solver := celer_path k (world st) in
  let ran := LassoCV.path X y alphas kwargs st in
  calls ran.2 = calls st ++ [k] /\
  world ran.2 = solver.2 /\
  self_attrs ran.2 = self_attrs st /\
  (forall e, solver.1 = Raise e -> ran.1 = Raise e) /\
  (forall v a c g, solver.1 = Return v -> iter_items v = Some [a; c; g] ->
     ran.1 = Return (PyTuple [a; c; g])).
Proof.
  intros E1 E2 E3 E4 E5 E6 E7 k solver ran. subst ran.
  rewrite LassoCV_path_run. unfold path_run.
  rewrite (stored_call_some _ _ _ _ _ _ _ _ _ _ _ E1 E2 E3 E4 E5 E6 E7).
  fold k. cbv zeta. fold solver. simpl. repeat split.
  - intros e ->. reflexivity.
  - intros v a c g -> Ei. simpl. unfold repack. now rewrite Ei.
Qed.

Lemma repack_not_three (tail : list pyval) (v : pyval) :
  (forall a c g, iter_items v <> Some [a; c; g]) ->
  repack tail v = Raise (not_three v).
Proof.
  intros Hv. unfold repack.
  destruct (iter_items v) as [[|a [|b [|c [|d l]]]]|] eqn:Ei; try reflexivity.
  now destruct (Hv a b c).
Qed.

(** X7: when [celer_path] returns something that does not unpack into exactly
    three values, both [path] methods raise after the call has been made (it
    is recorded, and the world is the one [celer_path] left), and the
    instance is as it was.  The exception is [TypeError] for a value that is
    not iterable, and [ValueError] for an iterable that holds fewer than
    three items or more than three. *)
Theorem path_unpacking_failure (X y alphas : pyval) (kwargs : gmap string pyval)
    (st : state) (k : Kw.t) (v : pyval) (wd : World) :
  stored_call (self_attrs st) X y alphas = Return k ->
  celer_path k (world st) = (Return v, wd) ->
  (forall a c g, iter_items v <> Some [a; c; g]) ->
  exists e,
    Lasso.path X y alphas kwargs st = (Raise e, mkstate _ (self_attrs st) (calls st ++ [k]) wd) /\
    LassoCV.path X y alphas kwargs st = (Raise e, mkstate _ (self_attrs st) (calls st ++ [k]) wd) /\
    match iter_items v with
    | None => exists msg, e = TypeError msg
    | Some items => length items <> 3%nat /\ exists msg, e = ValueError msg
    end.
Proof.
  intros Ek Ec Hv. rewrite Lasso_path_run, LassoCV_path_run. unfold path_run.
  rewrite Ek. cbv zeta. rewrite Ec. simpl.
  rewrite !repack_not_three by assumption.
  exists (not_three v). split; [reflexivity|]. split; [reflexivity|].
  unfold not_three. destruct (iter_items v) as [items|] eqn:Ei; [|eauto].
  split.
  - intros Hl. destruct items as [|a [|c [|g [|d l]]]]; try discriminate Hl.
    now destruct (Hv a c g).
  - destruct (length items <? 3)%nat; eauto.
Qed.

(** X8: the outcome of either [path], the call it makes and the world it
    leaves depend on the instance only through the seven configuration
    attributes: the keyword arguments in [**kwargs] and every other attribute
    ([alpha], [fit_intercept], [return_n_iter], ...) are not read. *)
Theorem path_reads_only_the_configuration (X y alphas : pyval)
    (kwargs kwargs' : gmap string pyval) (st st' : state) :
  (forall name, name ∈ configuration_names ->
     self_attrs st !! name = self_attrs st' !! name) ->
  world st = world st' ->
  (let ran := Lasso.path X y alphas kwargs st in
   let ran' := Lasso.path X y alphas kwargs' st' in
   ran.1 = ran'.1 /\ world ran.2 = world ran'.2 /\
   drop (length (calls st)) (calls ran.2) = drop (length (calls st')) (calls ran'.2)) /\
  (let ran := LassoCV.path X y alphas kwargs st in
   let ran' := LassoCV.path X y alphas kwargs' st' in
   ran.1 = ran'.1 /\ world ran.2 = world ran'.2 /\
   drop (length (calls st)) (calls ran.2) = drop (length (calls st')) (calls ran'.2)).
Proof.
  intros Ea Ew. cbv zeta. rewrite !Lasso_path_run, !LassoCV_path_run. unfold path_run.
  rewrite (stored_call_agree _ _ X y alphas Ea), Ew.
  destruct (stored_call (self_attrs st') X y alphas) as [k|e]; simpl;
    rewrite ?drop_app_length, ?Ew, ?drop_all; auto.
Qed.

End Paths.

Section Composition.
Context `{Imports}.

(** X9: constructing a [Lasso] and calling [path] on it, over a base class
    that stores [max_iter] and [tol] under their names, makes one call of
    [celer_path] whose configuration is the constructor's arguments
    [max_iter], [gap_freq], [max_epochs], [p0], [verbose], [tol] and [prune];
    the [alpha] of the constructor is no part of the call. *)
Theorem Lasso_construct_then_path (a : Lasso.args) (X y alphas : pyval)
    (kwargs : gmap string pyval) (st : state) (base : gmap string pyval) :
  Lasso_sklearn_init (Lasso.alpha a) (Lasso.tol a) (Lasso.max_iter a) (self_attrs st) =
    (Return tt, base) ->
  base !! "max_iter" = Some (Lasso.max_iter a) ->
  base !! "tol" = Some (Lasso.tol a) ->
  let k := Kw.call X y alphas (Lasso.max_iter a) (Lasso.gap_freq a) (Lasso.max_epochs a)
             (Lasso.p0 a) (Lasso.verbose a) (Lasso.tol a) (Lasso.prune a) in
  let solver := celer_path k (world st) in
  let ran := (Lasso.__init__ a ≫= λ _, Lasso.path X y alphas kwargs) st in
  calls ran.2 = calls st ++ [k] /\
  world ran.2 = solver.2 /\
  (forall e, solver.1 = Raise e -> ran.1 = Raise e) /\
  (forall v a c g, solver.1 = Return v -> iter_items v = Some [a; c; g] ->
     ran.1 = Return (PyTuple [a; c; g; PyList [PyInt 1]])).
Proof.
  intros Eb Em Et k solver ran.
  assert (exists attrs,
            ran = (outcome_bind solver.1 (repack [PyList [PyInt 1]]),
                   mkstate _ attrs (calls st ++ [k]) solver.2)) as [attrs ->].
  { eexists. subst ran. unfold mbind, M_bind. rewrite Lasso_init_run, Eb.
    rewrite Lasso_path_run. unfold path_run. cbn [self_attrs calls world].
    erewrite stored_call_some by (simplify_map_eq; reflexivity). reflexivity. }
  simpl. repeat split.
  - intros e ->. reflexivity.
  - intros v a' c g -> Ei. simpl. unfold repack. now rewrite Ei.
Qed.

(** X10: constructing a [LassoCV] and calling [path] on it, over a base class
    that stores [max_iter], [tol] and [verbose] under their names (the class
    stores none of the three itself), makes one call of [celer_path] whose
    configuration is the constructor's arguments, and returns the three
    values of [celer_path]. *)
Theorem LassoCV_construct_then_path (a : LassoCV.args) (X y alphas : pyval)
    (kwargs : gmap string pyval) (st : state) (base : gmap string pyval) :
  LassoCV_sklearn_init (LassoCV.eps a) (LassoCV.n_alphas a) (LassoCV.alphas a)
    (LassoCV.max_iter a) (LassoCV.tol a) (LassoCV.cv a) (LassoCV.fit_intercept a)
    (LassoCV.verbose a) (self_attrs st) = (Return tt, base) ->
  base !! "max_iter" = Some (LassoCV.max_iter a) ->
  base !! "tol" = Some (LassoCV.tol a) ->
  base !! "verbose" = Some (LassoCV.verbose a) ->
  let k := Kw.call X y alphas (LassoCV.max_iter a) (LassoCV.gap_freq a)
             (LassoCV.max_epochs a) (LassoCV.p0 a) (LassoCV.verbose a) (LassoCV.tol a)
             (LassoCV.prune a) in
  let solver := celer_path k (world st) in
  let ran := (LassoCV.__init__ a ≫= λ _, LassoCV.path X y alphas kwargs) st in
  calls ran.2 = calls st ++ [k] /\
  world ran.2 = solver.2 /\
  (forall e, solver.1 = Raise e -> ran.1 = Raise e) /\
  (forall v a c g, solver.1 = Return v -> iter_items v = Some [a; c; g] ->
     ran.1 = Return (PyTuple [a; c; g])).
Proof.
  intros Eb Em Et Ev k solver ran.
  assert (exists attrs,
            ran = (outcome_bind solver.1 (repack []),
                   mkstate _ attrs (calls st ++ [k]) solver.2)) as [attrs ->].
  { eexists. subst ran. unfold mbind, M_bind. rewrite LassoCV_init_run, Eb.
    rewrite LassoCV_path_run. unfold path_run. cbn [self_attrs calls world].
    erewrite stored_call_some by (simplify_map_eq; reflexivity). reflexivity. }
  simpl. repeat split.
  - intros e ->. reflexivity.
  - intros v a' c g -> Ei. simpl. unfold repack. now rewrite Ei.
Qed.

(** X11: [Lasso.path] keeps nothing between calls.  When a first call
    returns, a second call on the same input makes the same call of
    [celer_path] once more, in the world the first call left, and the
    instance is still as before the first call. *)
Theorem path_twice_calls_twice (X y alphas : pyval) (kwargs kwargs' : gmap string pyval)
    (st st1 : state) (r : pyval) :
  Lasso.path X y alphas kwargs st = (Return r, st1) ->
  exists k,
    let ran := (Lasso.path X y alphas kwargs ≫= λ _, Lasso.path X y alphas kwargs') st in
    calls ran.2 = calls st ++ [k; k] /\
    world ran.2 = (celer_path k (world st1)).2 /\
    self_attrs ran.2 = self_attrs st.
Proof.
  intros E1. pose proof E1 as E1'. rewrite Lasso_path_run in E1'.
  apply path_run_return in E1' as (k & v & a & c & g & Ek & _ & _ & _ & Est).
  exists k. cbv zeta.
  assert (self_attrs st1 = self_attrs st) as Ea by (rewrite Est; reflexivity).
  assert (calls st1 = calls st ++ [k]) as Ec by (rewrite Est; reflexivity).
  assert ((Lasso.path X y alphas kwargs ≫= λ _, Lasso.path X y alphas kwargs') st =
          path_run [PyList [PyInt 1]] X y alphas st1) as ->.
  { unfold mbind, M_bind. rewrite E1. apply Lasso_path_run. }
  unfold path_run. rewrite Ea, Ek. simpl. rewrite Ec, <- app_assoc. auto.
Qed.

End Composition.

(** ** The further properties at the examples *)

Lemma Lasso_init_stores_its_parameters_witness :
  exists self : @state example_imports,
    @Lasso.__init__ example_imports Lasso.defaults (@fresh halving_core) = (Return tt, self) /\
    self_attrs self !! "p0" = Some (PyInt 10) /\
    self_attrs self !! "alpha" = Some (PyFloat 1).
Proof.
  destruct (@Lasso_init_stores_its_parameters example_imports Lasso.defaults
              (@fresh halving_core) _ eq_refl)
    as (self & Hi & _ & _ & _ & Hp & _ & Hf & _).
  exists self. split; [exact Hi|]. split; [exact Hp|].
  rewrite Hf; [reflexivity|]. unfold Lasso_assigned. intros Hn;
  repeat (apply elem_of_cons in Hn as [Hn|Hn]; [discriminate Hn|]); now apply elem_of_nil in Hn.
Defined.

Lemma LassoCV_init_stores_its_parameters_witness :
  exists self : @state example_imports,
    @LassoCV.__init__ example_imports LassoCV.defaults (@fresh halving_core) =
      (Return tt, self) /\
    self_attrs self !! "max_epochs" = Some (PyInt 50000) /\
    self_attrs self !! "verbose" = Some (PyInt 0).
Proof.
  destruct (@LassoCV_init_stores_its_parameters example_imports LassoCV.defaults
              (@fresh halving_core) _ eq_refl)
    as (self & Hi & _ & He & _ & _ & Hf & _).
  exists self. split; [exact Hi|]. split; [exact He|].
  rewrite Hf; [reflexivity|]. unfold LassoCV_assigned. intros Hn;
  repeat (apply elem_of_cons in Hn as [Hn|Hn]; [discriminate Hn|]); now apply elem_of_nil in Hn.
Defined.

Lemma init_passes_on_the_base_exception_witness :
  @Lasso.__init__ (scripted (Return PyNone) (Some (TypeError "bad alpha"))) Lasso.defaults
    (@mkstate (scripted (Return PyNone) (Some (TypeError "bad alpha"))) ∅ [] 0%nat) =
    (Raise (TypeError "bad alpha"),
     @mkstate (scripted (Return PyNone) (Some (TypeError "bad alpha")))
       {["alpha" := PyFloat 1.0]} [] 0%nat).
Proof.
  exact (proj1 (@init_passes_on_the_base_exception
                  (scripted (Return PyNone) (Some (TypeError "bad alpha")))
                  (TypeError "bad alpha")
                  (@mkstate (scripted (Return PyNone) (Some (TypeError "bad alpha"))) ∅ [] 0%nat)
                  {["alpha" := PyFloat 1.0]})
           Lasso.defaults eq_refl).
Defined.

Lemma path_missing_attribute_witness :
  (@Lasso.path example_imports example_X example_y example_alphas ∅ lasso_without_tol).1 =
    Raise (AttributeError "tol").
Proof.
  refine (f_equal fst
            (proj1 (@path_missing_attribute example_imports example_X example_y example_alphas
                      ∅ lasso_without_tol
                      ["max_iter"; "gap_freq"; "max_epochs"; "p0"; "verbose"] ["prune"] "tol"
                      eq_refl _ _))).
  - intros n Hn.
    repeat (apply elem_of_cons in Hn as [->|Hn]; [eexists; vm_compute; reflexivity|]).
    now apply elem_of_nil in Hn.
  - vm_compute. reflexivity.
Defined.

Lemma LassoCV_path_is_adapter_glue_witness :
  calls (@LassoCV.path example_imports example_X example_y example_alphas ∅
           example_lassocv).2 = calls example_lassocv ++ [example_call].
Proof.
  refine (proj1 (@LassoCV_path_is_adapter_glue example_imports example_X example_y
                   example_alphas ∅ example_lassocv (PyInt 100) (PyInt 10) (PyInt 50000)
                   (PyInt 10) (PyInt 0) (PyFloat 1e-6) (PyInt 0) _ _ _ _ _ _ _));
    vm_compute; reflexivity.
Defined.

Lemma scripted_lasso_call (answer : outcome pyval) :
  stored_call (self_attrs (scripted_lasso answer)) example_X example_y example_alphas =
    Return example_call.
Proof. vm_compute. reflexivity. Qed.

Lemma path_unpacking_failure_witness :
  (exists msg,
     (@Lasso.path (scripted (Return PyNone) None) example_X example_y example_alphas ∅
        (scripted_lasso (Return PyNone))).1 = Raise (TypeError msg)) /\
  (exists msg,
     (@Lasso.path (scripted (Return (PyTuple [PyNone; PyNone])) None) example_X example_y
        example_alphas ∅ (scripted_lasso (Return (PyTuple [PyNone; PyNone])))).1 =
       Raise (ValueError msg)).
Proof.
  split.
  - destruct (@path_unpacking_failure (scripted (Return PyNone) None) example_X example_y
                example_alphas ∅ (scripted_lasso (Return PyNone)) example_call PyNone 1%nat
                (scripted_lasso_call _) eq_refl)
      as (e & -> & _ & He); [discriminate|].
    simpl in He. destruct He as [msg ->]. now exists msg.
  - destruct (@path_unpacking_failure (scripted (Return (PyTuple [PyNone; PyNone])) None)
                example_X example_y example_alphas ∅
                (scripted_lasso (Return (PyTuple [PyNone; PyNone]))) example_call
                (PyTuple [PyNone; PyNone]) 1%nat (scripted_lasso_call _) eq_refl)
      as (e & -> & _ & He); [discriminate|].
    simpl in He. destruct He as [_ [msg ->]]. now exists msg.
Defined.

Lemma other_alpha_same_configuration (name : string) :
  name ∈ configuration_names ->
  self_attrs example_lasso !! name = self_attrs lasso_other_alpha !! name.
Proof.
  unfold configuration_names. intros Hn.
  repeat (apply elem_of_cons in Hn as [->|Hn]; [vm_compute; reflexivity|]).
  now apply elem_of_nil in Hn.
Qed.

Lemma path_reads_only_the_configuration_witness :
  (@Lasso.path example_imports example_X example_y example_alphas ∅ example_lasso).1 =
  (@Lasso.path example_imports example_X example_y example_alphas
     {["return_n_iter" := PyBool true]} lasso_other_alpha).1.
Proof.
  exact (proj1 (proj1 (@path_reads_only_the_configuration example_imports example_X
                         example_y example_alphas ∅ {["return_n_iter" := PyBool true]}
                         example_lasso lasso_other_alpha other_alpha_same_configuration
                         eq_refl))).
Defined.

Lemma Lasso_construct_then_path_witness :
  calls ((@Lasso.__init__ example_imports Lasso.defaults ≫=
            λ _, @Lasso.path example_imports example_X example_y example_alphas ∅)
           (@fresh halving_core)).2 = [example_call].
Proof.
  exact (proj1 (@Lasso_construct_then_path example_imports Lasso.defaults example_X
                  example_y example_alphas ∅ (@fresh halving_core) _
                  eq_refl eq_refl eq_refl)).
Defined.

Lemma LassoCV_construct_then_path_witness :
  calls ((@LassoCV.__init__ example_imports LassoCV.defaults ≫=
            λ _, @LassoCV.path example_imports example_X example_y example_alphas ∅)
           (@fresh halving_core)).2 = [example_call].
Proof.
  exact (proj1 (@LassoCV_construct_then_path example_imports LassoCV.defaults example_X
                  example_y example_alphas ∅ (@fresh halving_core) _
                  eq_refl eq_refl eq_refl eq_refl)).
Defined.

Lemma path_twice_calls_twice_witness :
  exists k,
    calls ((@Lasso.path example_imports example_X example_y example_alphas ∅ ≫=
              λ _, @Lasso.path example_imports example_X example_y example_alphas ∅)
             example_lasso).2 = calls example_lasso ++ [k; k].
Proof.
  destruct (@path_twice_calls_twice example_imports example_X example_y example_alphas ∅ ∅
              example_lasso _ _ (run_as_pair _ _ _ example_lasso_path)) as (k & Hc & _).
  exists k. exact Hc.
Defined.
